(** * Validation schemas of the video player data model (app/models.py)

    The module app/models.py declares SQLModel classes: persistent tables and
    non-persistent schemas "for validation, forms, API requests/responses".
    A class body is a list of annotated fields, each with an optional
    [Field(...)] carrying a default and constraints ([max_length], [ge],
    [gt], [le]).  Constructing a schema from keyword arguments validates every
    field and either yields the record or raises one ValidationError that
    lists every offending field.

    The embedding keeps that shape: keyword arguments are a finite map from
    field names to Python values, a field annotation is a validator, a class
    is a record together with its constructor [new], written field by field
    as in the class body, and the outcome of a construction is either the
    list of errors or the record. *)

From Stdlib Require Import ZArith NArith Ascii String QArith Qpower.
From stdpp Require Import gmap strings list.

Local Open Scope Z_scope.

(** ** Python values *)

(** [decimal.Decimal], finite values: sign, coefficient and exponent, as
    [Decimal.as_tuple()] shows them; the number denoted is
    [(-1)^sign * coefficient * 10^exponent]. *)
Record Decimal : Type := mkDecimal {
  sign : bool;
  coefficient : N;
  exponent : Z
}.

Definition Decimal_signed (d : Decimal) : Z :=
  if sign d then - Z.of_N (coefficient d) else Z.of_N (coefficient d).

(** The rational number a Decimal denotes. *)
Definition Decimal_value (d : Decimal) : Q :=
  (inject_Z (Decimal_signed d) * inject_Z 10 ^ exponent d)%Q.

(** The coefficient of [d] once [d] is written with the exponent [e], for
    [e] not above the exponent of [d]. *)
Definition Decimal_scaled (d : Decimal) (e : Z) : Z :=
  Decimal_signed d * 10 ^ (exponent d - e).

(** Comparison is by numerical value: both numbers are brought to the
    smaller of the two exponents. *)
Definition Decimal_compare (a b : Decimal) : comparison :=
  let e := Z.min (exponent a) (exponent b) in
  Decimal_scaled a e ?= Decimal_scaled b e.

Definition Decimal_ltb (a b : Decimal) : bool :=
  match Decimal_compare a b with Lt => true | _ => false end.

Definition Decimal_leb (a b : Decimal) : bool :=
  match Decimal_compare a b with Gt => false | _ => true end.

(** [Decimal(z)] for a Python int [z]. *)
Definition Decimal_of_Z (z : Z) : Decimal :=
  mkDecimal (z <? 0) (Z.abs_N z) 0.

(** [Decimal(s)] for a plain literal [s]: an optional sign, digits, and
    optionally a point followed by digits, with at least one digit in all. *)
Definition digit_of_ascii (c : ascii) : option N :=
  let n := N_of_ascii c in
  if ((48 <=? n) && (n <=? 57))%N then Some (n - 48)%N else None.

Fixpoint parse_fraction (s : string) (coeff : N) (places : Z) (seen : bool)
  : option (N * Z) :=
  match s with
  | EmptyString => if seen then Some (coeff, - places) else None
  | String c s' =>
      match digit_of_ascii c with
      | Some d => parse_fraction s' (10 * coeff + d)%N (places + 1) true
      | None => None
      end
  end.

Fixpoint parse_integer (s : string) (coeff : N) (seen : bool)
  : option (N * Z) :=
  match s with
  | EmptyString => if seen then Some (coeff, 0) else None
  | String c s' =>
      if Ascii.eqb c "."%char then parse_fraction s' coeff 0 seen
      else match digit_of_ascii c with
           | Some d => parse_integer s' (10 * coeff + d)%N true
           | None => None
           end
  end.

Definition Decimal_of_string (s : string) : option Decimal :=
  let unsigned (neg : bool) (body : string) :=
    match parse_integer body 0%N false with
    | Some (c, e) => Some (mkDecimal neg c e)
    | None => None
    end in
  match s with
  | String c s' =>
      if Ascii.eqb c "-"%char then unsigned true s'
      else if Ascii.eqb c "+"%char then unsigned false s'
      else unsigned false s
  | EmptyString => None
  end.

(** The values a caller passes as keyword arguments.  A [str] is a sequence
    of characters, one [ascii] each; an [int] is unbounded; a [datetime] is
    a point on the time line. *)
#[warnings="-register-all"]
Inductive pyval : Type :=
  | PNone
  | PBool (b : bool)
  | PInt (z : Z)
  | PStr (s : string)
  | PDecimal (d : Decimal)
  | PDatetime (t : Z)
  | PList (l : list pyval).

(** ** Validation errors *)

Inductive error_type : Type :=
  | missing
  | string_type
  | string_too_long (max : nat)
  | int_type
  | bool_type
  | decimal_type
  | datetime_type
  | list_type
  | greater_than_equal (bound : Decimal)
  | greater_than (bound : Decimal)
  | less_than_equal (bound : Decimal).

(** One line of a ValidationError: the field and what is wrong with it. *)
Definition error : Type := string * error_type.

(** The outcome of constructing a model: every error found, or the value. *)
Definition validated (A : Type) : Type := list error + A.

Definition ok {A} (a : A) : validated A := inr a.

(** Fields are validated independently and all errors are reported, in
    the order of the fields. *)
Definition ap {A B} (f : validated (A -> B)) (x : validated A) : validated B :=
  match f, x with
  | inr g, inr a => inr (g a)
  | inr _, inl es => inl es
  | inl es, inr _ => inl es
  | inl es, inl es' => inl (es ++ es')
  end.

Notation "f <&> x" := (ap f x) (at level 61, left associativity).

(** [r] is a ValidationError with a line for [e]. *)
Definition fails_with {A} (r : validated A) (e : error) : Prop :=
  exists es, r = inl es /\ e ∈ es.

(** ** Field(...) *)

Module Field.
(** The constraints a [Field(...)] of models.py can carry.  The numeric
    bounds are written in the source as int or float literals (0, 1000,
    0.0, 100.0), all of them integers in value. *)
Record t : Type := mk {
  max_length : option nat;
  ge : option Decimal;
  gt : option Decimal;
  le : option Decimal
}.

(** [Field()] with no constraint, also a bare annotation. *)
Definition plain : t := mk None None None None.
Definition with_max_length (n : nat) (f : t) : t :=
  mk (Some n) (ge f) (gt f) (le f).
Definition with_ge (b : Z) (f : t) : t :=
  mk (max_length f) (Some (Decimal_of_Z b)) (gt f) (le f).
Definition with_gt (b : Z) (f : t) : t :=
  mk (max_length f) (ge f) (Some (Decimal_of_Z b)) (le f).
Definition with_le (b : Z) (f : t) : t :=
  mk (max_length f) (ge f) (gt f) (Some (Decimal_of_Z b)).
End Field.

(** ** Annotations as validators *)

(** A value is valid for an annotation when it has that Python type and
    meets the constraints of the field.  The conversions modelled are the
    exact ones into [Decimal] (see [to_Decimal]); a value that would need
    another conversion (digits in a str passed for an int, and the like) is
    reported here as a type error. *)
Definition validator (A : Type) : Type := pyval -> error_type + A.

(** One numeric bound: [holds b] must be true when the bound [b] is set. *)
Definition check_bound (bound : option Decimal) (holds : Decimal -> bool)
    (err : Decimal -> error_type) : option error_type :=
  match bound with
  | Some b => if holds b then None else Some (err b)
  | None => None
  end.

(** The numeric bounds of a field, checked on the numerical value [d]; the
    first bound that fails is the one reported. *)
Definition check_bounds (f : Field.t) (d : Decimal) : option error_type :=
  match check_bound (Field.le f) (Decimal_leb d) less_than_equal with
  | Some e => Some e
  | None =>
      match check_bound (Field.ge f) (fun b => Decimal_leb b d)
              greater_than_equal with
      | Some e => Some e
      | None =>
          check_bound (Field.gt f) (fun b => Decimal_ltb b d) greater_than
      end
  end.

(** [str] *)
Definition py_str (f : Field.t) : validator string := fun v =>
  match v with
  | PStr s =>
      match Field.max_length f with
      | Some n =>
          if decide (String.length s ≤ n)%nat then inr s
          else inl (string_too_long n)
      | None => inr s
      end
  | _ => inl string_type
  end.

(** [int] *)
Definition py_int (f : Field.t) : validator Z := fun v =>
  match v with
  | PInt z =>
      match check_bounds f (Decimal_of_Z z) with
      | Some e => inl e
      | None => inr z
      end
  | _ => inl int_type
  end.

(** [bool] *)
Definition py_bool : validator bool := fun v =>
  match v with
  | PBool b => inr b
  | _ => inl bool_type
  end.

(** What a value passed for a [Decimal] field denotes: a Decimal is taken as
    it is, an int and a plain decimal literal are converted exactly; nothing
    else is a decimal. *)
Definition to_Decimal (v : pyval) : option Decimal :=
  match v with
  | PDecimal d => Some d
  | PInt z => Some (Decimal_of_Z z)
  | PStr s => Decimal_of_string s
  | _ => None
  end.

(** [Decimal] *)
Definition py_Decimal (f : Field.t) : validator Decimal := fun v =>
  match to_Decimal v with
  | Some d =>
      match check_bounds f d with
      | Some e => inl e
      | None => inr d
      end
  | None => inl decimal_type
  end.

(** [datetime] *)
Definition py_datetime : validator Z := fun v =>
  match v with
  | PDatetime t => inr t
  | _ => inl datetime_type
  end.

(** [Optional[T]]: None, or a value valid for [T]. *)
Definition Optional {A} (inner : validator A) : validator (option A) := fun v =>
  match v with
  | PNone => inr None
  | _ => match inner v with
         | inr a => inr (Some a)
         | inl e => inl e
         end
  end.

(** [List[str]]: a list whose elements are all strings. *)
Fixpoint strings_of (l : list pyval) : option (list string) :=
  match l with
  | [] => Some []
  | PStr s :: l' =>
      match strings_of l' with
      | Some ss => Some (s :: ss)
      | None => None
      end
  | _ :: _ => None
  end.

Definition List_str : validator (list string) := fun v =>
  match v with
  | PList l =>
      match strings_of l with
      | Some ss => inr ss
      | None => inl string_type
      end
  | _ => inl list_type
  end.

(** ** Fields of a class body *)

(** A field with no default: the argument must be present. *)
Definition required {A} (name : string) (val : validator A)
    (kwargs : gmap string pyval) : validated A :=
  match kwargs !! name with
  | None => inl [(name, missing)]
  | Some v =>
      match val v with
      | inr a => inr a
      | inl e => inl [(name, e)]
      end
  end.

(** A field with [default=d]: an omitted argument gives [d], which is not
    validated. *)
Definition defaulted {A} (name : string) (d : A) (val : validator A)
    (kwargs : gmap string pyval) : validated A :=
  match kwargs !! name with
  | None => inr d
  | Some v =>
      match val v with
      | inr a => inr a
      | inl e => inl [(name, e)]
      end
  end.

(** ** The classes of models.py *)

(** class VideoCreate(SQLModel, table=False) *)
Module VideoCreate.
Record t : Type := mk {
  title : string;
  description : string;
  file_path : string;
  file_size : Z;
  duration : Decimal;
  width : option Z;
  height : option Z;
  frame_rate : option Decimal;
  format : string;
  codec : option string;
  thumbnail_path : option string
}.

Definition new (kwargs : gmap string pyval) : validated t :=
  ok mk
  <&> required "title" (py_str (Field.with_max_length 255 Field.plain)) kwargs
  <&> defaulted "description" ""%string
        (py_str (Field.with_max_length 2000 Field.plain)) kwargs
  <&> required "file_path" (py_str (Field.with_max_length 500 Field.plain)) kwargs
  <&> required "file_size" (py_int Field.plain) kwargs
  <&> defaulted "duration" (mkDecimal false 0 0) (py_Decimal Field.plain) kwargs
  <&> defaulted "width" None (Optional (py_int Field.plain)) kwargs
  <&> defaulted "height" None (Optional (py_int Field.plain)) kwargs
  <&> defaulted "frame_rate" None (Optional (py_Decimal Field.plain)) kwargs
  <&> required "format" (py_str (Field.with_max_length 50 Field.plain)) kwargs
  <&> defaulted "codec" None
        (Optional (py_str (Field.with_max_length 50 Field.plain))) kwargs
  <&> defaulted "thumbnail_path" None
        (Optional (py_str (Field.with_max_length 500 Field.plain))) kwargs.

(** [model_dump()]: the field values, by field name. *)
Definition of_option {A} (f : A -> pyval) (o : option A) : pyval :=
  match o with Some a => f a | None => PNone end.

Definition model_dump (v : t) : gmap string pyval :=
  <["title" := PStr (title v)]>
  (<["description" := PStr (description v)]>
  (<["file_path" := PStr (file_path v)]>
  (<["file_size" := PInt (file_size v)]>
  (<["duration" := PDecimal (duration v)]>
  (<["width" := of_option PInt (width v)]>
  (<["height" := of_option PInt (height v)]>
  (<["frame_rate" := of_option PDecimal (frame_rate v)]>
  (<["format" := PStr (format v)]>
  (<["codec" := of_option PStr (codec v)]>
  (<["thumbnail_path" := of_option PStr (thumbnail_path v)]> ∅)))))))))).
End VideoCreate.

(** class PlaylistCreate(SQLModel, table=False) *)
Module PlaylistCreate.
Record t : Type := mk {
  name : string;
  description : string;
  is_favorite : bool
}.

Definition new (kwargs : gmap string pyval) : validated t :=
  ok mk
  <&> required "name" (py_str (Field.with_max_length 200 Field.plain)) kwargs
  <&> defaulted "description" ""%string
        (py_str (Field.with_max_length 1000 Field.plain)) kwargs
  <&> defaulted "is_favorite" false py_bool kwargs.
End PlaylistCreate.

(** class PlaylistItemCreate(SQLModel, table=False) *)
Module PlaylistItemCreate.
Record t : Type := mk {
  playlist_id : Z;
  video_id : Z;
  position : Z
}.

Definition new (kwargs : gmap string pyval) : validated t :=
  ok mk
  <&> required "playlist_id" (py_int Field.plain) kwargs
  <&> required "video_id" (py_int Field.plain) kwargs
  <&> required "position" (py_int Field.plain) kwargs.
End PlaylistItemCreate.

(** class PlaybackSessionUpdate(SQLModel, table=False) *)
Module PlaybackSessionUpdate.
Record t : Type := mk {
  current_position : option Decimal;
  volume_level : option Decimal;
  playback_speed : option Decimal;
  is_muted : option bool;
  is_fullscreen : option bool
}.

Definition new (kwargs : gmap string pyval) : validated t :=
  ok mk
  <&> defaulted "current_position" None (Optional (py_Decimal Field.plain)) kwargs
  <&> defaulted "volume_level" None
        (Optional (py_Decimal (Field.with_le 100 (Field.with_ge 0 Field.plain))))
        kwargs
  <&> defaulted "playback_speed" None
        (Optional (py_Decimal (Field.with_gt 0 Field.plain))) kwargs
  <&> defaulted "is_muted" None (Optional py_bool) kwargs
  <&> defaulted "is_fullscreen" None (Optional py_bool) kwargs.
End PlaybackSessionUpdate.

(** class VideoSearchParams(SQLModel, table=False) *)
Module VideoSearchParams.
Record t : Type := mk {
  title : option string;
  format : option string;
  min_duration : option Decimal;
  max_duration : option Decimal;
  tags : option (list string);
  limit : Z;
  offset : Z
}.

Definition new (kwargs : gmap string pyval) : validated t :=
  ok mk
  <&> defaulted "title" None (Optional (py_str Field.plain)) kwargs
  <&> defaulted "format" None (Optional (py_str Field.plain)) kwargs
  <&> defaulted "min_duration" None (Optional (py_Decimal Field.plain)) kwargs
  <&> defaulted "max_duration" None (Optional (py_Decimal Field.plain)) kwargs
  <&> defaulted "tags" None (Optional List_str) kwargs
  <&> defaulted "limit" 50 (py_int (Field.with_le 1000 Field.plain)) kwargs
  <&> defaulted "offset" 0 (py_int (Field.with_ge 0 Field.plain)) kwargs.
End VideoSearchParams.

(** class PlaybackSession(SQLModel, table=True).

    [validate] checks the declared fields of the table class against the
    keyword arguments, as [PlaybackSession.model_validate] does; it is the
    strictest way to obtain an instance (instantiating a table class directly
    performs no more checks than these).  [now] is what
    [datetime.utcnow] returns at the time of the call.  The relationship
    attribute [video] is not a column and takes no part in validation. *)
Module PlaybackSession.
Record t : Type := mk {
  id : option Z;
  video_id : Z;
  current_position : Decimal;
  volume_level : Decimal;
  playback_speed : Decimal;
  is_muted : bool;
  is_fullscreen : bool;
  last_played_at : Z;
  total_watch_time : Decimal;
  watch_count : Z
}.

Definition validate (now : Z) (kwargs : gmap string pyval) : validated t :=
  ok mk
  <&> defaulted "id" None (Optional (py_int Field.plain)) kwargs
  <&> required "video_id" (py_int Field.plain) kwargs
  <&> defaulted "current_position" (mkDecimal false 0 0)
        (py_Decimal Field.plain) kwargs
  <&> defaulted "volume_level" (mkDecimal false 100 0)
        (py_Decimal Field.plain) kwargs
  <&> defaulted "playback_speed" (mkDecimal false 10 (-1))
        (py_Decimal Field.plain) kwargs
  <&> defaulted "is_muted" false py_bool kwargs
  <&> defaulted "is_fullscreen" false py_bool kwargs
  <&> defaulted "last_played_at" now py_datetime kwargs
  <&> defaulted "total_watch_time" (mkDecimal false 0 0)
        (py_Decimal Field.plain) kwargs
  <&> defaulted "watch_count" 1 (py_int Field.plain) kwargs.
End PlaybackSession.

(** ** Calls *)

(** The keyword arguments of a call [C(name=value, ...)]. *)
Definition kw (l : list (string * pyval)) : gmap string pyval := list_to_map l.

(** The string [c * n]. *)
Fixpoint repeat_char (c : ascii) (n : nat) : string :=
  match n with
  | O => EmptyString
  | S n' => String c (repeat_char c n')
  end.

(** A call of VideoCreate with the required fields only. *)
Definition clip : gmap string pyval :=
  kw [("title", PStr "clip"); ("file_path", PStr "/videos/clip.mp4");
      ("file_size", PInt 1024); ("format", PStr "mp4")].

(** ** The other classes of models.py *)

(** The table classes are embedded like PlaybackSession: [validate] checks
    the declared columns.  A [default_factory=datetime.utcnow] is called once
    per field, in the order of the fields; the readings are parameters of
    [validate].  Relationship attributes are not columns, and [primary_key],
    [foreign_key] and [unique] concern the database only. *)

(** class Video(SQLModel, table=True) *)
Module Video.
Record t : Type := mk {
  id : option Z;
  title : string;
  description : string;
  file_path : string;
  file_size : Z;
  duration : Decimal;
  width : option Z;
  height : option Z;
  frame_rate : option Decimal;
  format : string;
  codec : option string;
  thumbnail_path : option string;
  created_at : Z;
  updated_at : Z
}.

Definition validate (created updated : Z) (kwargs : gmap string pyval)
  : validated t :=
  ok mk
  <&> defaulted "id" None (Optional (py_int Field.plain)) kwargs
  <&> required "title" (py_str (Field.with_max_length 255 Field.plain)) kwargs
  <&> defaulted "description" ""%string
        (py_str (Field.with_max_length 2000 Field.plain)) kwargs
  <&> required "file_path" (py_str (Field.with_max_length 500 Field.plain)) kwargs
  <&> required "file_size" (py_int Field.plain) kwargs
  <&> defaulted "duration" (mkDecimal false 0 0) (py_Decimal Field.plain) kwargs
  <&> defaulted "width" None (Optional (py_int Field.plain)) kwargs
  <&> defaulted "height" None (Optional (py_int Field.plain)) kwargs
  <&> defaulted "frame_rate" None (Optional (py_Decimal Field.plain)) kwargs
  <&> required "format" (py_str (Field.with_max_length 50 Field.plain)) kwargs
  <&> defaulted "codec" None
        (Optional (py_str (Field.with_max_length 50 Field.plain))) kwargs
  <&> defaulted "thumbnail_path" None
        (Optional (py_str (Field.with_max_length 500 Field.plain))) kwargs
  <&> defaulted "created_at" created py_datetime kwargs
  <&> defaulted "updated_at" updated py_datetime kwargs.
End Video.

(** class Playlist(SQLModel, table=True) *)
Module Playlist.
Record t : Type := mk {
  id : option Z;
  name : string;
  description : string;
  is_favorite : bool;
  created_at : Z;
  updated_at : Z
}.

Definition validate (created updated : Z) (kwargs : gmap string pyval)
  : validated t :=
  ok mk
  <&> defaulted "id" None (Optional (py_int Field.plain)) kwargs
  <&> required "name" (py_str (Field.with_max_length 200 Field.plain)) kwargs
  <&> defaulted "description" ""%string
        (py_str (Field.with_max_length 1000 Field.plain)) kwargs
  <&> defaulted "is_favorite" false py_bool kwargs
  <&> defaulted "created_at" created py_datetime kwargs
  <&> defaulted "updated_at" updated py_datetime kwargs.
End Playlist.

(** class PlaylistItem(SQLModel, table=True) *)
Module PlaylistItem.
Record t : Type := mk {
  id : option Z;
  playlist_id : Z;
  video_id : Z;
  position : Z;
  added_at : Z
}.

Definition validate (added : Z) (kwargs : gmap string pyval) : validated t :=
  ok mk
  <&> defaulted "id" None (Optional (py_int Field.plain)) kwargs
  <&> required "playlist_id" (py_int Field.plain) kwargs
  <&> required "video_id" (py_int Field.plain) kwargs
  <&> required "position" (py_int Field.plain) kwargs
  <&> defaulted "added_at" added py_datetime kwargs.
End PlaylistItem.

(** class UserPreference(SQLModel, table=True) *)
Module UserPreference.
Record t : Type := mk {
  id : option Z;
  preference_key : string;
  preference_value : string;
  data_type : string;
  description : string;
  created_at : Z;
  updated_at : Z
}.

Definition validate (created updated : Z) (kwargs : gmap string pyval)
  : validated t :=
  ok mk
  <&> defaulted "id" None (Optional (py_int Field.plain)) kwargs
  <&> required "preference_key"
        (py_str (Field.with_max_length 100 Field.plain)) kwargs
  <&> required "preference_value"
        (py_str (Field.with_max_length 500 Field.plain)) kwargs
  <&> required "data_type" (py_str (Field.with_max_length 20 Field.plain)) kwargs
  <&> defaulted "description" ""%string
        (py_str (Field.with_max_length 200 Field.plain)) kwargs
  <&> defaulted "created_at" created py_datetime kwargs
  <&> defaulted "updated_at" updated py_datetime kwargs.
End UserPreference.

(** class VideoTag(SQLModel, table=True) *)
Module VideoTag.
Record t : Type := mk {
  id : option Z;
  name : string;
  color : option string;
  created_at : Z
}.

Definition validate (created : Z) (kwargs : gmap string pyval) : validated t :=
  ok mk
  <&> defaulted "id" None (Optional (py_int Field.plain)) kwargs
  <&> required "name" (py_str (Field.with_max_length 100 Field.plain)) kwargs
  <&> defaulted "color" None
        (Optional (py_str (Field.with_max_length 7 Field.plain))) kwargs
  <&> defaulted "created_at" created py_datetime kwargs.
End VideoTag.

(** class VideoTagLink(SQLModel, table=True) *)
Module VideoTagLink.
Record t : Type := mk {
  id : option Z;
  video_id : Z;
  tag_id : Z;
  created_at : Z
}.

Definition validate (created : Z) (kwargs : gmap string pyval) : validated t :=
  ok mk
  <&> defaulted "id" None (Optional (py_int Field.plain)) kwargs
  <&> required "video_id" (py_int Field.plain) kwargs
  <&> required "tag_id" (py_int Field.plain) kwargs
  <&> defaulted "created_at" created py_datetime kwargs.
End VideoTagLink.

(** class VideoUpdate(SQLModel, table=False) *)
Module VideoUpdate.
Record t : Type := mk {
  title : option string;
  description : option string;
  thumbnail_path : option string
}.

Definition new (kwargs : gmap string pyval) : validated t :=
  ok mk
  <&> defaulted "title" None
        (Optional (py_str (Field.with_max_length 255 Field.plain))) kwargs
  <&> defaulted "description" None
        (Optional (py_str (Field.with_max_length 2000 Field.plain))) kwargs
  <&> defaulted "thumbnail_path" None
        (Optional (py_str (Field.with_max_length 500 Field.plain))) kwargs.

Definition model_dump (v : t) : gmap string pyval :=
  <["title" := VideoCreate.of_option PStr (title v)]>
  (<["description" := VideoCreate.of_option PStr (description v)]>
  (<["thumbnail_path" := VideoCreate.of_option PStr (thumbnail_path v)]> ∅)).
End VideoUpdate.

(** class PlaylistUpdate(SQLModel, table=False) *)
Module PlaylistUpdate.
Record t : Type := mk {
  name : option string;
  description : option string;
  is_favorite : option bool
}.

Definition new (kwargs : gmap string pyval) : validated t :=
  ok mk
  <&> defaulted "name" None
        (Optional (py_str (Field.with_max_length 200 Field.plain))) kwargs
  <&> defaulted "description" None
        (Optional (py_str (Field.with_max_length 1000 Field.plain))) kwargs
  <&> defaulted "is_favorite" None (Optional py_bool) kwargs.

Definition model_dump (v : t) : gmap string pyval :=
  <["name" := VideoCreate.of_option PStr (name v)]>
  (<["description" := VideoCreate.of_option PStr (description v)]>
  (<["is_favorite" := VideoCreate.of_option PBool (is_favorite v)]> ∅)).
End PlaylistUpdate.

(** class UserPreferenceCreate(SQLModel, table=False) *)
Module UserPreferenceCreate.
Record t : Type := mk {
  preference_key : string;
  preference_value : string;
  data_type : string;
  description : string
}.

Definition new (kwargs : gmap string pyval) : validated t :=
  ok mk
  <&> required "preference_key"
        (py_str (Field.with_max_length 100 Field.plain)) kwargs
  <&> required "preference_value"
        (py_str (Field.with_max_length 500 Field.plain)) kwargs
  <&> required "data_type" (py_str (Field.with_max_length 20 Field.plain)) kwargs
  <&> defaulted "description" ""%string
        (py_str (Field.with_max_length 200 Field.plain)) kwargs.

Definition model_dump (v : t) : gmap string pyval :=
  <["preference_key" := PStr (preference_key v)]>
  (<["preference_value" := PStr (preference_value v)]>
  (<["data_type" := PStr (data_type v)]>
  (<["description" := PStr (description v)]> ∅))).
End UserPreferenceCreate.

(** class VideoTagCreate(SQLModel, table=False) *)
Module VideoTagCreate.
Record t : Type := mk {
  name : string;
  color : option string
}.

Definition new (kwargs : gmap string pyval) : validated t :=
  ok mk
  <&> required "name" (py_str (Field.with_max_length 100 Field.plain)) kwargs
  <&> defaulted "color" None
        (Optional (py_str (Field.with_max_length 7 Field.plain))) kwargs.

Definition model_dump (v : t) : gmap string pyval :=
  <["name" := PStr (name v)]>
  (<["color" := VideoCreate.of_option PStr (color v)]> ∅).
End VideoTagCreate.


Definition PlaylistItemCreate_model_dump (v : PlaylistItemCreate.t)
  : gmap string pyval :=
  <["playlist_id" := PInt (PlaylistItemCreate.playlist_id v)]>
  (<["video_id" := PInt (PlaylistItemCreate.video_id v)]>
  (<["position" := PInt (PlaylistItemCreate.position v)]> ∅)).

Definition PlaybackSessionUpdate_model_dump (v : PlaybackSessionUpdate.t)
  : gmap string pyval :=
  <["current_position" :=
      VideoCreate.of_option PDecimal (PlaybackSessionUpdate.current_position v)]>
  (<["volume_level" :=
       VideoCreate.of_option PDecimal (PlaybackSessionUpdate.volume_level v)]>
  (<["playback_speed" :=
       VideoCreate.of_option PDecimal (PlaybackSessionUpdate.playback_speed v)]>
  (<["is_muted" :=
       VideoCreate.of_option PBool (PlaybackSessionUpdate.is_muted v)]>
  (<["is_fullscreen" :=
       VideoCreate.of_option PBool (PlaybackSessionUpdate.is_fullscreen v)]> ∅)))).

Definition VideoSearchParams_model_dump (v : VideoSearchParams.t)
  : gmap string pyval :=
  <["title" := VideoCreate.of_option PStr (VideoSearchParams.title v)]>
  (<["format" := VideoCreate.of_option PStr (VideoSearchParams.format v)]>
  (<["min_duration" :=
       VideoCreate.of_option PDecimal (VideoSearchParams.min_duration v)]>
  (<["max_duration" :=
       VideoCreate.of_option PDecimal (VideoSearchParams.max_duration v)]>
  (<["tags" :=
       VideoCreate.of_option (fun l => PList (map PStr l))
         (VideoSearchParams.tags v)]>
  (<["limit" := PInt (VideoSearchParams.limit v)]>
  (<["offset" := PInt (VideoSearchParams.offset v)]> ∅)))))).

(** The record a VideoCreate gives when it is stored as a Video. *)
Definition Video_of_VideoCreate (created updated : Z) (c : VideoCreate.t)
  : Video.t :=
  Video.mk None (VideoCreate.title c) (VideoCreate.description c)
    (VideoCreate.file_path c) (VideoCreate.file_size c)
    (VideoCreate.duration c) (VideoCreate.width c) (VideoCreate.height c)
    (VideoCreate.frame_rate c) (VideoCreate.format c) (VideoCreate.codec c)
    (VideoCreate.thumbnail_path c) created updated.

(** The fields of a Video that VideoCreate has too. *)
Definition VideoCreate_of_Video (v : Video.t) : VideoCreate.t :=
  VideoCreate.mk (Video.title v) (Video.description v) (Video.file_path v)
    (Video.file_size v) (Video.duration v) (Video.width v) (Video.height v)
    (Video.frame_rate v) (Video.format v) (Video.codec v)
    (Video.thumbnail_path v).

(** ** Decimal comparison *)

Lemma Decimal_signed_of_Z (z : Z) : Decimal_signed (Decimal_of_Z z) = z.
Proof.
  unfold Decimal_signed, Decimal_of_Z; simpl.
  destruct (Z.ltb_spec z 0); rewrite N2Z.inj_abs_N; lia.
Qed.

Lemma Decimal_compare_antisym (a b : Decimal) :
  Decimal_compare b a = CompOpp (Decimal_compare a b).
Proof.
  unfold Decimal_compare; simpl.
  rewrite (Z.min_comm (exponent b)). apply Z.compare_antisym.
Qed.

(** Comparing at any common exponent below both gives the same answer. *)
Lemma Decimal_scaled_lower (d : Decimal) (e e' : Z) :
  e' <= e -> e <= exponent d ->
  Decimal_scaled d e' = Decimal_scaled d e * 10 ^ (e - e').
Proof.
  intros H1 H2. unfold Decimal_scaled.
  rewrite <- Z.mul_assoc, <- Z.pow_add_r by lia.
  do 2 f_equal. lia.
Qed.

Lemma Decimal_compare_at (a b : Decimal) (e : Z) :
  e <= exponent a -> e <= exponent b ->
  Decimal_compare a b = (Decimal_scaled a e ?= Decimal_scaled b e).
Proof.
  intros Ha Hb. unfold Decimal_compare; cbv zeta.
  set (m := Z.min (exponent a) (exponent b)).
  rewrite (Decimal_scaled_lower a m e), (Decimal_scaled_lower b m e) by lia.
  apply Zmult_compare_compat_r.
  apply Z.lt_gt, Z.pow_pos_nonneg; lia.
Qed.

(** The comparison is the order of the rationals on the values denoted. *)
Lemma Decimal_value_scaled (d : Decimal) (e : Z) :
  e <= exponent d ->
  (Decimal_value d == inject_Z (Decimal_scaled d e) * inject_Z 10 ^ e)%Q.
Proof.
  intros He. unfold Decimal_value, Decimal_scaled.
  rewrite inject_Z_mult, Zpower_Qpower by lia.
  rewrite <- Qmult_assoc, <- Qpower_plus by done.
  by replace (exponent d - e + e) with (exponent d) by lia.
Qed.

Lemma Decimal_compare_value (a b : Decimal) :
  Decimal_compare a b = (Decimal_value a ?= Decimal_value b)%Q.
Proof.
  unfold Decimal_compare; cbv zeta.
  set (e := Z.min (exponent a) (exponent b)).
  rewrite (Decimal_value_scaled a e), (Decimal_value_scaled b e) by lia.
  assert (Hpos : (0 < inject_Z 10 ^ e)%Q) by by apply Qpower_0_lt.
  symmetry. destruct (Z.compare_spec (Decimal_scaled a e) (Decimal_scaled b e))
    as [Heq|Hlt|Hgt].
  - apply Qeq_alt. by rewrite Heq.
  - apply Qlt_alt, Qmult_lt_compat_r; [done|]. by rewrite <- Zlt_Qlt.
  - apply Qgt_alt, Qmult_lt_compat_r; [done|]. by rewrite <- Zlt_Qlt.
Qed.

Lemma Decimal_ltb_value (a b : Decimal) :
  Decimal_ltb a b = true <-> (Decimal_value a < Decimal_value b)%Q.
Proof.
  unfold Decimal_ltb. rewrite Decimal_compare_value, Qlt_alt.
  destruct (_ ?= _)%Q; intuition congruence.
Qed.

Lemma Decimal_leb_value (a b : Decimal) :
  Decimal_leb a b = true <-> (Decimal_value a <= Decimal_value b)%Q.
Proof.
  unfold Decimal_leb. rewrite Decimal_compare_value, Qle_alt.
  destruct (_ ?= _)%Q; intuition congruence.
Qed.

Lemma Decimal_value_of_Z (z : Z) : (Decimal_value (Decimal_of_Z z) == inject_Z z)%Q.
Proof.
  unfold Decimal_value. rewrite Decimal_signed_of_Z. simpl. apply Qmult_1_r.
Qed.

Lemma Decimal_leb_le (a b : Decimal) (e : Z) :
  e <= exponent a -> e <= exponent b ->
  Decimal_leb a b = true <-> Decimal_scaled a e <= Decimal_scaled b e.
Proof.
  intros Ha Hb. unfold Decimal_leb. rewrite (Decimal_compare_at a b e Ha Hb).
  unfold Z.le. destruct (_ ?= _); intuition congruence.
Qed.

Lemma Decimal_ltb_lt (a b : Decimal) (e : Z) :
  e <= exponent a -> e <= exponent b ->
  Decimal_ltb a b = true <-> Decimal_scaled a e < Decimal_scaled b e.
Proof.
  intros Ha Hb. unfold Decimal_ltb. rewrite (Decimal_compare_at a b e Ha Hb).
  unfold Z.lt. destruct (_ ?= _); intuition congruence.
Qed.

Lemma Decimal_leb_trans (a b c : Decimal) :
  Decimal_leb a b = true -> Decimal_leb b c = true -> Decimal_leb a c = true.
Proof.
  set (e := Z.min (exponent a) (Z.min (exponent b) (exponent c))).
  rewrite (Decimal_leb_le a b e), (Decimal_leb_le b c e), (Decimal_leb_le a c e)
    by lia.
  lia.
Qed.

Lemma Decimal_ltb_leb (a b : Decimal) :
  Decimal_ltb a b = true -> Decimal_leb a b = true.
Proof.
  unfold Decimal_ltb, Decimal_leb. by destruct (Decimal_compare a b).
Qed.

Lemma Decimal_ltb_not_leb (a b : Decimal) :
  Decimal_ltb a b = true -> Decimal_leb b a = false.
Proof.
  unfold Decimal_ltb, Decimal_leb. rewrite (Decimal_compare_antisym a b).
  by destruct (Decimal_compare a b).
Qed.

Lemma Decimal_leb_not_ltb (a b : Decimal) :
  Decimal_leb a b = true -> Decimal_ltb b a = false.
Proof.
  unfold Decimal_ltb, Decimal_leb. rewrite (Decimal_compare_antisym a b).
  by destruct (Decimal_compare a b).
Qed.

Lemma Decimal_leb_of_Z (x y : Z) :
  Decimal_leb (Decimal_of_Z x) (Decimal_of_Z y) = (x <=? y).
Proof.
  unfold Decimal_leb, Decimal_compare, Decimal_scaled; simpl.
  rewrite !Decimal_signed_of_Z, !Z.mul_1_r. unfold Z.leb.
  by destruct (x ?= y).
Qed.

Lemma Decimal_ltb_of_Z (x y : Z) :
  Decimal_ltb (Decimal_of_Z x) (Decimal_of_Z y) = (x <? y).
Proof.
  unfold Decimal_ltb, Decimal_compare, Decimal_scaled; simpl.
  rewrite !Decimal_signed_of_Z, !Z.mul_1_r. unfold Z.ltb.
  by destruct (x ?= y).
Qed.

(** ** Accumulating errors *)

Lemma ap_inr_inv {A B} (f : validated (A -> B)) (x : validated A) (b : B) :
  f <&> x = inr b -> exists g a, f = inr g /\ x = inr a /\ b = g a.
Proof.
  destruct f as [es|g], x as [es'|a]; simpl; intros H; try discriminate.
  exists g, a. by inversion H.
Qed.

Lemma fails_ap_l {A B} (f : validated (A -> B)) (x : validated A) (e : error) :
  fails_with f e -> fails_with (f <&> x) e.
Proof.
  intros (es & -> & Hin). destruct x as [es'|a]; simpl.
  - exists (es ++ es'). split; [done|]. apply elem_of_app; by left.
  - by exists es.
Qed.

Lemma fails_ap_r {A B} (f : validated (A -> B)) (x : validated A) (e : error) :
  fails_with x e -> fails_with (f <&> x) e.
Proof.
  intros (es & -> & Hin). destruct f as [es'|g]; simpl.
  - exists (es' ++ es). split; [done|]. apply elem_of_app; by right.
  - by exists es.
Qed.

(** ** Fields look at their own argument only *)

Section fields.
Context {A : Type} (name : string) (val : validator A).
Implicit Types (kwargs : gmap string pyval) (v : pyval).

Lemma required_missing kwargs :
  kwargs !! name = None -> fails_with (required name val kwargs) (name, missing).
Proof.
  intros H. unfold required. rewrite H.
  exists [(name, missing)]. split; [done|]. apply list_elem_of_singleton; done.
Qed.

Lemma required_invalid kwargs v e :
  kwargs !! name = Some v -> val v = inl e ->
  fails_with (required name val kwargs) (name, e).
Proof.
  intros H Hv. unfold required. rewrite H, Hv.
  exists [(name, e)]. split; [done|]. apply list_elem_of_singleton; done.
Qed.

Lemma defaulted_invalid d kwargs v e :
  kwargs !! name = Some v -> val v = inl e ->
  fails_with (defaulted name d val kwargs) (name, e).
Proof.
  intros H Hv. unfold defaulted. rewrite H, Hv.
  exists [(name, e)]. split; [done|]. apply list_elem_of_singleton; done.
Qed.

Lemma required_insert_eq kwargs v a :
  val v = inr a -> required name val (<[name := v]> kwargs) = inr a.
Proof. intros Hv. unfold required. by rewrite lookup_insert_eq, Hv. Qed.

Lemma defaulted_insert_eq d kwargs v a :
  val v = inr a -> defaulted name d val (<[name := v]> kwargs) = inr a.
Proof. intros Hv. unfold defaulted. by rewrite lookup_insert_eq, Hv. Qed.

Lemma defaulted_omitted d kwargs :
  kwargs !! name = None -> defaulted name d val kwargs = inr d.
Proof. intros H. unfold defaulted. by rewrite H. Qed.

Lemma required_insert_ne kwargs k v :
  k ≠ name -> required name val (<[k := v]> kwargs) = required name val kwargs.
Proof. intros Hne. unfold required. by rewrite lookup_insert_ne. Qed.

Lemma defaulted_insert_ne d kwargs k v :
  k ≠ name ->
  defaulted name d val (<[k := v]> kwargs) = defaulted name d val kwargs.
Proof. intros Hne. unfold defaulted. by rewrite lookup_insert_ne. Qed.
End fields.

(** Take a construction apart into its fields. *)
Ltac split_fields H :=
  repeat
    (let g := fresh "g" in
     let a := fresh "a" in
     let Hx := fresh "Hfield" in
     let Hb := fresh "Hrec" in
     apply ap_inr_inv in H; destruct H as (g & a & H & Hx & Hb);
     subst);
  unfold ok in H; injection H as <-.

(** One field was replaced and shown valid by [Hv]: the others validate as
    before. *)
Ltac replaced_field Hv :=
  first [ rewrite (defaulted_insert_eq _ _ _ _ _ _ Hv)
        | rewrite (required_insert_eq _ _ _ _ _ Hv) ];
  rewrite ?required_insert_ne, ?defaulted_insert_ne by discriminate;
  repeat match goal with
         | H : _ = inr _ |- _ => rewrite H; clear H
         end;
  reflexivity.

(** Walk down the fields to the one that is in error. *)
Ltac find_field tac :=
  first [ apply fails_ap_r; solve [tac]
        | apply fails_ap_l; find_field tac ].

Lemma py_int_le_ok (b z : Z) :
  z <= b -> py_int (Field.with_le b Field.plain) (PInt z) = inr z.
Proof.
  intros H. unfold py_int, check_bounds, check_bound; simpl.
  rewrite Decimal_leb_of_Z. by rewrite (proj2 (Z.leb_le z b) H).
Qed.

Lemma py_int_ge_ok (b z : Z) :
  b <= z -> py_int (Field.with_ge b Field.plain) (PInt z) = inr z.
Proof.
  intros H. unfold py_int, check_bounds, check_bound; simpl.
  rewrite Decimal_leb_of_Z. by rewrite (proj2 (Z.leb_le b z) H).
Qed.

Lemma py_int_le_invalid (b z : Z) :
  b < z ->
  py_int (Field.with_le b Field.plain) (PInt z)
  = inl (less_than_equal (Decimal_of_Z b)).
Proof.
  intros H. unfold py_int, check_bounds, check_bound; simpl.
  rewrite Decimal_leb_of_Z. by rewrite (proj2 (Z.leb_gt z b) H).
Qed.

Lemma py_int_ge_invalid (b z : Z) :
  z < b ->
  py_int (Field.with_ge b Field.plain) (PInt z)
  = inl (greater_than_equal (Decimal_of_Z b)).
Proof.
  intros H. unfold py_int, check_bounds, check_bound; simpl.
  rewrite Decimal_leb_of_Z. by rewrite (proj2 (Z.leb_gt b z) H).
Qed.

(** An optional decimal field, given a value that denotes [d]. *)
Lemma Optional_Decimal_value (f : Field.t) (v : pyval) (d : Decimal) :
  to_Decimal v = Some d ->
  Optional (py_Decimal f) v
  = match check_bounds f d with
    | Some e => inl e
    | None => inr (Some d)
    end.
Proof.
  intros H. unfold Optional, py_Decimal.
  destruct v; try discriminate; rewrite H; by destruct (check_bounds f d).
Qed.

(** The volume field of PlaybackSessionUpdate: ge=0.0, le=100.0. *)
Lemma volume_ok (v : pyval) (d : Decimal) :
  to_Decimal v = Some d ->
  Decimal_leb (Decimal_of_Z 0) d = true ->
  Decimal_leb d (Decimal_of_Z 100) = true ->
  Optional (py_Decimal (Field.with_le 100 (Field.with_ge 0 Field.plain))) v
  = inr (Some d).
Proof.
  intros Hv H0 H100. rewrite (Optional_Decimal_value _ _ _ Hv).
  unfold check_bounds, check_bound; simpl. by rewrite H0, H100.
Qed.

Lemma volume_below (v : pyval) (d : Decimal) :
  to_Decimal v = Some d ->
  Decimal_ltb d (Decimal_of_Z 0) = true ->
  Optional (py_Decimal (Field.with_le 100 (Field.with_ge 0 Field.plain))) v
  = inl (greater_than_equal (Decimal_of_Z 0)).
Proof.
  intros Hv H. rewrite (Optional_Decimal_value _ _ _ Hv).
  unfold check_bounds, check_bound; simpl.
  rewrite (Decimal_ltb_not_leb _ _ H).
  rewrite (Decimal_leb_trans d (Decimal_of_Z 0) (Decimal_of_Z 100));
    [done | by apply Decimal_ltb_leb | done].
Qed.

Lemma volume_above (v : pyval) (d : Decimal) :
  to_Decimal v = Some d ->
  Decimal_ltb (Decimal_of_Z 100) d = true ->
  Optional (py_Decimal (Field.with_le 100 (Field.with_ge 0 Field.plain))) v
  = inl (less_than_equal (Decimal_of_Z 100)).
Proof.
  intros Hv H. rewrite (Optional_Decimal_value _ _ _ Hv).
  unfold check_bounds, check_bound; simpl.
  by rewrite (Decimal_ltb_not_leb _ _ H).
Qed.

(** The speed field of PlaybackSessionUpdate: gt=0.0. *)
Lemma speed_ok (v : pyval) (d : Decimal) :
  to_Decimal v = Some d ->
  Decimal_ltb (Decimal_of_Z 0) d = true ->
  Optional (py_Decimal (Field.with_gt 0 Field.plain)) v = inr (Some d).
Proof.
  intros Hv H. rewrite (Optional_Decimal_value _ _ _ Hv).
  unfold check_bounds, check_bound; simpl. by rewrite H.
Qed.

Lemma speed_not_positive (v : pyval) (d : Decimal) :
  to_Decimal v = Some d ->
  Decimal_leb d (Decimal_of_Z 0) = true ->
  Optional (py_Decimal (Field.with_gt 0 Field.plain)) v
  = inl (greater_than (Decimal_of_Z 0)).
Proof.
  intros Hv H. rewrite (Optional_Decimal_value _ _ _ Hv).
  unfold check_bounds, check_bound; simpl.
  by rewrite (Decimal_leb_not_ltb _ _ H).
Qed.

Lemma py_str_ok (n : nat) (s : string) :
  (String.length s ≤ n)%nat ->
  py_str (Field.with_max_length n Field.plain) (PStr s) = inr s.
Proof. intros H. unfold py_str; simpl. by rewrite decide_True. Qed.

Lemma py_str_too_long (n : nat) (s : string) :
  (n < String.length s)%nat ->
  py_str (Field.with_max_length n Field.plain) (PStr s)
  = inl (string_too_long n).
Proof. intros H. unfold py_str; simpl. rewrite decide_False; [done | lia]. Qed.

(** ** Validated values validate again *)

Lemma py_str_again (f : Field.t) (v : pyval) (s : string) :
  py_str f v = inr s -> py_str f (PStr s) = inr s.
Proof.
  destruct v; try discriminate. simpl.
  destruct (Field.max_length f) as [n|]; [|congruence].
  destruct (decide _) as [Hle|]; [|discriminate].
  intros [= <-]. by rewrite decide_True.
Qed.

Lemma py_int_again (f : Field.t) (v : pyval) (z : Z) :
  py_int f v = inr z -> py_int f (PInt z) = inr z.
Proof.
  destruct v; try discriminate. simpl.
  destruct (check_bounds f (Decimal_of_Z z0)) eqn:E; [discriminate|].
  intros [= <-]. by rewrite E.
Qed.

Lemma py_Decimal_again (f : Field.t) (v : pyval) (d : Decimal) :
  py_Decimal f v = inr d -> py_Decimal f (PDecimal d) = inr d.
Proof.
  unfold py_Decimal. destruct (to_Decimal v) as [d0|]; [|discriminate].
  simpl. destruct (check_bounds f d0) eqn:E; [discriminate|].
  intros [= <-]. by rewrite E.
Qed.

Lemma Optional_str_again (f : Field.t) (v : pyval) (o : option string) :
  Optional (py_str f) v = inr o ->
  Optional (py_str f) (VideoCreate.of_option PStr o) = inr o.
Proof.
  unfold Optional. destruct v; try discriminate.
  - by intros [= <-].
  - destruct (py_str f (PStr s)) eqn:E; [discriminate|].
    intros [= <-]. simpl VideoCreate.of_option.
    by rewrite (py_str_again _ _ _ E).
Qed.

Lemma Optional_int_again (f : Field.t) (v : pyval) (o : option Z) :
  Optional (py_int f) v = inr o ->
  Optional (py_int f) (VideoCreate.of_option PInt o) = inr o.
Proof.
  unfold Optional. destruct v; try discriminate.
  - by intros [= <-].
  - destruct (py_int f (PInt z)) eqn:E; [discriminate|].
    intros [= <-]. simpl VideoCreate.of_option.
    by rewrite (py_int_again _ _ _ E).
Qed.

Lemma Optional_Decimal_again (f : Field.t) (v : pyval) (o : option Decimal) :
  Optional (py_Decimal f) v = inr o ->
  Optional (py_Decimal f) (VideoCreate.of_option PDecimal o) = inr o.
Proof.
  unfold Optional. destruct v; try discriminate.
  - by intros [= <-].
  - destruct (py_Decimal f (PInt z)) eqn:E; [discriminate|].
    intros [= <-]. simpl VideoCreate.of_option.
    by rewrite (py_Decimal_again _ _ _ E).
  - destruct (py_Decimal f (PStr s)) eqn:E; [discriminate|].
    intros [= <-]. simpl VideoCreate.of_option.
    by rewrite (py_Decimal_again _ _ _ E).
  - destruct (py_Decimal f (PDecimal d)) eqn:E; [discriminate|].
    intros [= <-]. simpl VideoCreate.of_option.
    by rewrite (py_Decimal_again _ _ _ E).
Qed.

Section fields_again.
Context {A : Type} (name : string) (val : validator A).
Implicit Types (kwargs : gmap string pyval) (v : pyval).

Lemma required_valid kwargs a :
  required name val kwargs = inr a ->
  exists v, kwargs !! name = Some v /\ val v = inr a.
Proof.
  unfold required. destruct (kwargs !! name) as [v|]; [|discriminate].
  destruct (val v) eqn:E; [discriminate|]. intros [= <-]. by exists v.
Qed.

Lemma defaulted_valid d kwargs a :
  defaulted name d val kwargs = inr a ->
  (kwargs !! name = None /\ a = d)
  \/ exists v, kwargs !! name = Some v /\ val v = inr a.
Proof.
  unfold defaulted. destruct (kwargs !! name) as [v|].
  - destruct (val v) eqn:E; [discriminate|]. intros [= <-]. right. by exists v.
  - intros [= <-]. by left.
Qed.

Lemma required_again kwargs kwargs' a v' :
  required name val kwargs = inr a ->
  kwargs' !! name = Some v' ->
  (forall v, val v = inr a -> val v' = inr a) ->
  required name val kwargs' = inr a.
Proof.
  intros H Hk Hv. apply required_valid in H as (v & _ & Hval).
  unfold required. by rewrite Hk, (Hv v Hval).
Qed.

Lemma defaulted_again d kwargs kwargs' a v' :
  defaulted name d val kwargs = inr a ->
  kwargs' !! name = Some v' ->
  (forall v, val v = inr a -> val v' = inr a) ->
  (a = d -> val v' = inr a) ->
  defaulted name d val kwargs' = inr a.
Proof.
  intros H Hk Hv Hd. unfold defaulted. rewrite Hk.
  apply defaulted_valid in H as [[_ ->]|(v & _ & Hval)].
  - by rewrite Hd.
  - by rewrite (Hv v Hval).
Qed.
End fields_again.

(** A field of a dumped record validates to the value it was dumped from. *)
Ltac value_again :=
  intros ?;
  first [ apply py_str_again | apply py_int_again | apply py_Decimal_again
        | apply Optional_str_again | apply Optional_int_again
        | apply Optional_Decimal_again ].

Ltac dumped_fields :=
  repeat match goal with
         | H : required ?n ?val ?k = inr ?a |- context [required ?n ?val ?k'] =>
             let E := fresh "E" in
             assert (E : required n val k' = inr a)
               by (eapply required_again;
                   [exact H | reflexivity | value_again]);
             rewrite E; clear E H
         | H : defaulted ?n ?d ?val ?k = inr ?a
           |- context [defaulted ?n ?d ?val ?k'] =>
             let E := fresh "E" in
             assert (E : defaulted n d val k' = inr a)
               by (eapply defaulted_again;
                   [exact H | reflexivity | value_again
                   | intros ->; reflexivity]);
             rewrite E; clear E H
         end.

(** ** The claims *)

(** C1. PlaybackSessionUpdate: a volume_level below 0 (such as -0.1) or above
    100 (such as 100.1) is rejected with an error on that field; a
    volume_level from 0 to 100, both ends included, is accepted; a
    playback_speed that is 0 or negative is rejected; every positive
    playback_speed is accepted.  The value [v] passed denotes the decimal
    [d].  Acceptance is stated on any construction that is valid otherwise:
    setting the field there gives the same record with that field changed. *)
Theorem PlaybackSessionUpdate_volume_and_speed
    (kwargs : gmap string pyval) (r : PlaybackSessionUpdate.t)
    (v : pyval) (d : Decimal) :
  to_Decimal v = Some d ->
  (kwargs !! "volume_level" = Some v ->
   Decimal_ltb d (Decimal_of_Z 0) = true ->
   fails_with (PlaybackSessionUpdate.new kwargs)
     ("volume_level", greater_than_equal (Decimal_of_Z 0)))
  /\ (kwargs !! "volume_level" = Some v ->
      Decimal_ltb (Decimal_of_Z 100) d = true ->
      fails_with (PlaybackSessionUpdate.new kwargs)
        ("volume_level", less_than_equal (Decimal_of_Z 100)))
  /\ (PlaybackSessionUpdate.new kwargs = inr r ->
      Decimal_leb (Decimal_of_Z 0) d = true ->
      Decimal_leb d (Decimal_of_Z 100) = true ->
      PlaybackSessionUpdate.new (<["volume_level" := v]> kwargs)
      = inr (PlaybackSessionUpdate.mk
               (PlaybackSessionUpdate.current_position r) (Some d)
               (PlaybackSessionUpdate.playback_speed r)
               (PlaybackSessionUpdate.is_muted r)
               (PlaybackSessionUpdate.is_fullscreen r)))
  /\ (kwargs !! "playback_speed" = Some v ->
      Decimal_leb d (Decimal_of_Z 0) = true ->
      fails_with (PlaybackSessionUpdate.new kwargs)
        ("playback_speed", greater_than (Decimal_of_Z 0)))
  /\ (PlaybackSessionUpdate.new kwargs = inr r ->
      Decimal_ltb (Decimal_of_Z 0) d = true ->
      PlaybackSessionUpdate.new (<["playback_speed" := v]> kwargs)
      = inr (PlaybackSessionUpdate.mk
               (PlaybackSessionUpdate.current_position r)
               (PlaybackSessionUpdate.volume_level r) (Some d)
               (PlaybackSessionUpdate.is_muted r)
               (PlaybackSessionUpdate.is_fullscreen r))).
Proof.
  intros Hv. unfold PlaybackSessionUpdate.new.
  split; [|split; [|split; [|split]]].
  - intros Hk Hd.
    find_field ltac:(eapply defaulted_invalid;
                     [exact Hk | by apply (volume_below v d)]).
  - intros Hk Hd.
    find_field ltac:(eapply defaulted_invalid;
                     [exact Hk | by apply (volume_above v d)]).
  - intros H H0 H100. split_fields H. replaced_field (volume_ok v d Hv H0 H100).
  - intros Hk Hd.
    find_field ltac:(eapply defaulted_invalid;
                     [exact Hk | by apply (speed_not_positive v d)]).
  - intros H Hd. split_fields H. replaced_field (speed_ok v d Hv Hd).
Qed.

Lemma PlaybackSessionUpdate_volume_and_speed_witness :
  fails_with
    (PlaybackSessionUpdate.new
       (kw [("volume_level", PDecimal (mkDecimal true 1 (-1)))]))
    ("volume_level", greater_than_equal (Decimal_of_Z 0))
  /\ fails_with
       (PlaybackSessionUpdate.new (kw [("volume_level", PStr "100.1")]))
       ("volume_level", less_than_equal (Decimal_of_Z 100))
  /\ PlaybackSessionUpdate.new
       (<["volume_level" := PDecimal (mkDecimal false 0 0)]>
          (kw [("is_muted", PBool true)]))
     = inr (PlaybackSessionUpdate.mk None (Some (mkDecimal false 0 0)) None
              (Some true) None)
  /\ PlaybackSessionUpdate.new
       (<["volume_level" := PInt 100]> (kw [("is_muted", PBool true)]))
     = inr (PlaybackSessionUpdate.mk None (Some (mkDecimal false 100 0)) None
              (Some true) None)
  /\ fails_with
       (PlaybackSessionUpdate.new
          (kw [("playback_speed", PDecimal (mkDecimal false 0 0))]))
       ("playback_speed", greater_than (Decimal_of_Z 0))
  /\ fails_with
       (PlaybackSessionUpdate.new
          (kw [("playback_speed", PDecimal (mkDecimal true 15 (-1)))]))
       ("playback_speed", greater_than (Decimal_of_Z 0))
  /\ PlaybackSessionUpdate.new
       (<["playback_speed" := PDecimal (mkDecimal false 25 (-2))]>
          (kw [("is_muted", PBool true)]))
     = inr (PlaybackSessionUpdate.mk None None (Some (mkDecimal false 25 (-2)))
              (Some true) None).
Proof.
  set (r := PlaybackSessionUpdate.mk None None None (Some true) None).
  split; [|split; [|split; [|split; [|split; [|split]]]]].
  - apply (proj1 (PlaybackSessionUpdate_volume_and_speed
                    _ r (PDecimal (mkDecimal true 1 (-1))) _ eq_refl));
      reflexivity.
  - apply (proj1 (proj2 (PlaybackSessionUpdate_volume_and_speed
                           _ r (PStr "100.1") _ eq_refl))); reflexivity.
  - apply (proj1 (proj2 (proj2 (PlaybackSessionUpdate_volume_and_speed
                                  _ r (PDecimal (mkDecimal false 0 0)) _ eq_refl))));
      reflexivity.
  - apply (proj1 (proj2 (proj2 (PlaybackSessionUpdate_volume_and_speed
                                  _ r (PInt 100) _ eq_refl)))); reflexivity.
  - apply (proj1 (proj2 (proj2 (proj2 (PlaybackSessionUpdate_volume_and_speed
             _ r (PDecimal (mkDecimal false 0 0)) _ eq_refl))))); reflexivity.
  - apply (proj1 (proj2 (proj2 (proj2 (PlaybackSessionUpdate_volume_and_speed
             _ r (PDecimal (mkDecimal true 15 (-1))) _ eq_refl))))); reflexivity.
  - apply (proj2 (proj2 (proj2 (proj2 (PlaybackSessionUpdate_volume_and_speed
             _ r (PDecimal (mkDecimal false 25 (-2))) _ eq_refl))))); reflexivity.
Defined.

(** C2. VideoSearchParams: a limit of 1001 is rejected and a limit of 1000 is
    accepted; an offset of -1 is rejected and an offset of 0 is accepted; an
    omitted limit is 50 and an omitted offset is 0. *)
Theorem VideoSearchParams_limit_and_offset
    (kwargs : gmap string pyval) (r : VideoSearchParams.t) :
  (kwargs !! "limit" = Some (PInt 1001) ->
   fails_with (VideoSearchParams.new kwargs)
     ("limit", less_than_equal (Decimal_of_Z 1000)))
  /\ (VideoSearchParams.new kwargs = inr r ->
      VideoSearchParams.new (<["limit" := PInt 1000]> kwargs)
      = inr (VideoSearchParams.mk
               (VideoSearchParams.title r) (VideoSearchParams.format r)
               (VideoSearchParams.min_duration r)
               (VideoSearchParams.max_duration r)
               (VideoSearchParams.tags r) 1000 (VideoSearchParams.offset r)))
  /\ (kwargs !! "offset" = Some (PInt (-1)) ->
      fails_with (VideoSearchParams.new kwargs)
        ("offset", greater_than_equal (Decimal_of_Z 0)))
  /\ (VideoSearchParams.new kwargs = inr r ->
      VideoSearchParams.new (<["offset" := PInt 0]> kwargs)
      = inr (VideoSearchParams.mk
               (VideoSearchParams.title r) (VideoSearchParams.format r)
               (VideoSearchParams.min_duration r)
               (VideoSearchParams.max_duration r)
               (VideoSearchParams.tags r) (VideoSearchParams.limit r) 0))
  /\ (VideoSearchParams.new kwargs = inr r ->
      kwargs !! "limit" = None -> VideoSearchParams.limit r = 50)
  /\ (VideoSearchParams.new kwargs = inr r ->
      kwargs !! "offset" = None -> VideoSearchParams.offset r = 0).
Proof.
  unfold VideoSearchParams.new.
  split; [|split; [|split; [|split; [|split]]]].
  - intros Hk.
    find_field ltac:(eapply defaulted_invalid;
                     [exact Hk | by apply py_int_le_invalid]).
  - intros H. split_fields H.
    replaced_field (py_int_le_ok 1000 1000 (Z.le_refl _)).
  - intros Hk.
    find_field ltac:(eapply defaulted_invalid;
                     [exact Hk | by apply py_int_ge_invalid]).
  - intros H. split_fields H.
    replaced_field (py_int_ge_ok 0 0 (Z.le_refl _)).
  - intros H Hk. split_fields H. simpl.
    rewrite (defaulted_omitted _ _ _ _ Hk) in Hfield0. congruence.
  - intros H Hk. split_fields H. simpl.
    rewrite (defaulted_omitted _ _ _ _ Hk) in Hfield. congruence.
Qed.

Lemma VideoSearchParams_limit_and_offset_witness :
  fails_with (VideoSearchParams.new (kw [("limit", PInt 1001)]))
    ("limit", less_than_equal (Decimal_of_Z 1000))
  /\ VideoSearchParams.new (<["limit" := PInt 1000]> (kw [("title", PStr "cat")]))
     = inr (VideoSearchParams.mk (Some "cat"%string) None None None None 1000 0)
  /\ fails_with (VideoSearchParams.new (kw [("offset", PInt (-1))]))
       ("offset", greater_than_equal (Decimal_of_Z 0))
  /\ VideoSearchParams.new (<["offset" := PInt 0]> (kw [("title", PStr "cat")]))
     = inr (VideoSearchParams.mk (Some "cat"%string) None None None None 50 0)
  /\ VideoSearchParams.limit
       (VideoSearchParams.mk (Some "cat"%string) None None None None 50 0) = 50
  /\ VideoSearchParams.offset
       (VideoSearchParams.mk (Some "cat"%string) None None None None 50 0) = 0.
Proof.
  set (r := VideoSearchParams.mk (Some "cat"%string) None None None None 50 0).
  split; [|split; [|split; [|split; [|split]]]].
  - apply (proj1 (VideoSearchParams_limit_and_offset _ r)); reflexivity.
  - apply (proj1 (proj2 (VideoSearchParams_limit_and_offset _ r))); reflexivity.
  - apply (proj1 (proj2 (proj2 (VideoSearchParams_limit_and_offset _ r))));
      reflexivity.
  - apply (proj1 (proj2 (proj2 (proj2 (VideoSearchParams_limit_and_offset _ r)))));
      reflexivity.
  - apply (proj1 (proj2 (proj2 (proj2 (proj2
       (VideoSearchParams_limit_and_offset (kw [("title", PStr "cat")]) r))))));
      reflexivity.
  - apply (proj2 (proj2 (proj2 (proj2 (proj2
       (VideoSearchParams_limit_and_offset (kw [("title", PStr "cat")]) r))))));
      reflexivity.
Defined.

(** C3. VideoCreate: a title longer than 255 characters is rejected with an
    error on the title; a title of exactly 255 characters is accepted when
    the other fields are valid. *)
Theorem VideoCreate_title_max_length
    (kwargs : gmap string pyval) (r : VideoCreate.t) (t : string) :
  (kwargs !! "title" = Some (PStr t) ->
   (255 < String.length t)%nat ->
   fails_with (VideoCreate.new kwargs) ("title", string_too_long 255))
  /\ (VideoCreate.new kwargs = inr r ->
      String.length t = 255%nat ->
      VideoCreate.new (<["title" := PStr t]> kwargs)
      = inr (VideoCreate.mk t
               (VideoCreate.description r) (VideoCreate.file_path r)
               (VideoCreate.file_size r) (VideoCreate.duration r)
               (VideoCreate.width r) (VideoCreate.height r)
               (VideoCreate.frame_rate r) (VideoCreate.format r)
               (VideoCreate.codec r) (VideoCreate.thumbnail_path r))).
Proof.
  unfold VideoCreate.new. split.
  - intros Hk Hlen.
    find_field ltac:(eapply required_invalid;
                     [exact Hk | by apply py_str_too_long]).
  - intros H Hlen. split_fields H.
    assert (Hv : py_str (Field.with_max_length 255 Field.plain) (PStr t) = inr t)
      by (apply py_str_ok; lia).
    replaced_field Hv.
Qed.

Lemma VideoCreate_title_max_length_witness :
  fails_with
    (VideoCreate.new (<["title" := PStr (repeat_char "a" 256)]> clip))
    ("title", string_too_long 255)
  /\ VideoCreate.new (<["title" := PStr (repeat_char "a" 255)]> clip)
     = inr (VideoCreate.mk (repeat_char "a" 255) "" "/videos/clip.mp4" 1024
              (mkDecimal false 0 0) None None None "mp4" None None).
Proof.
  split.
  - apply (proj1 (VideoCreate_title_max_length _
                    (VideoCreate.mk "clip" "" "/videos/clip.mp4" 1024
                       (mkDecimal false 0 0) None None None "mp4" None None)
                    (repeat_char "a" 256))).
    + reflexivity.
    + vm_compute. lia.
  - apply (proj2 (VideoCreate_title_max_length clip
                    (VideoCreate.mk "clip" "" "/videos/clip.mp4" 1024
                       (mkDecimal false 0 0) None None None "mp4" None None)
                    (repeat_char "a" 255))); reflexivity.
Defined.

(** C4, as the code has it. VideoCreate requires file_path, file_size and
    format to be present: leaving one out is rejected with a missing-field
    error.  An empty string is accepted for file_path, and for format: the
    fields carry a maximal length only. *)
Theorem VideoCreate_required_fields
    (kwargs : gmap string pyval) (r : VideoCreate.t) :
  (kwargs !! "file_path" = None ->
   fails_with (VideoCreate.new kwargs) ("file_path", missing))
  /\ (kwargs !! "file_size" = None ->
      fails_with (VideoCreate.new kwargs) ("file_size", missing))
  /\ (kwargs !! "format" = None ->
      fails_with (VideoCreate.new kwargs) ("format", missing))
  /\ (VideoCreate.new kwargs = inr r ->
      VideoCreate.new (<["file_path" := PStr ""]> kwargs)
      = inr (VideoCreate.mk (VideoCreate.title r)
               (VideoCreate.description r) ""
               (VideoCreate.file_size r) (VideoCreate.duration r)
               (VideoCreate.width r) (VideoCreate.height r)
               (VideoCreate.frame_rate r) (VideoCreate.format r)
               (VideoCreate.codec r) (VideoCreate.thumbnail_path r)))
  /\ (VideoCreate.new kwargs = inr r ->
      VideoCreate.new (<["format" := PStr ""]> kwargs)
      = inr (VideoCreate.mk (VideoCreate.title r)
               (VideoCreate.description r) (VideoCreate.file_path r)
               (VideoCreate.file_size r) (VideoCreate.duration r)
               (VideoCreate.width r) (VideoCreate.height r)
               (VideoCreate.frame_rate r) ""
               (VideoCreate.codec r) (VideoCreate.thumbnail_path r))).
Proof.
  unfold VideoCreate.new. split; [|split; [|split; [|split]]].
  - intros Hk. find_field ltac:(by apply required_missing).
  - intros Hk. find_field ltac:(by apply required_missing).
  - intros Hk. find_field ltac:(by apply required_missing).
  - intros H. split_fields H.
    replaced_field (py_str_ok 500 "" (Nat.le_0_l _)).
  - intros H. split_fields H.
    replaced_field (py_str_ok 50 "" (Nat.le_0_l _)).
Qed.

Lemma VideoCreate_required_fields_witness :
  fails_with (VideoCreate.new (delete "file_path" clip)) ("file_path", missing)
  /\ fails_with (VideoCreate.new (delete "file_size" clip)) ("file_size", missing)
  /\ fails_with (VideoCreate.new (delete "format" clip)) ("format", missing)
  /\ VideoCreate.new (<["file_path" := PStr ""]> clip)
     = inr (VideoCreate.mk "clip" "" "" 1024 (mkDecimal false 0 0)
              None None None "mp4" None None)
  /\ VideoCreate.new (<["format" := PStr ""]> clip)
     = inr (VideoCreate.mk "clip" "" "/videos/clip.mp4" 1024
              (mkDecimal false 0 0) None None None "" None None).
Proof.
  set (r := VideoCreate.mk "clip" "" "/videos/clip.mp4" 1024
              (mkDecimal false 0 0) None None None "mp4" None None).
  split; [|split; [|split; [|split]]].
  - apply (proj1 (VideoCreate_required_fields _ r)); reflexivity.
  - apply (proj1 (proj2 (VideoCreate_required_fields _ r))); reflexivity.
  - apply (proj1 (proj2 (proj2 (VideoCreate_required_fields _ r)))); reflexivity.
  - apply (proj1 (proj2 (proj2 (proj2 (VideoCreate_required_fields clip r)))));
      reflexivity.
  - apply (proj2 (proj2 (proj2 (proj2 (VideoCreate_required_fields clip r)))));
      reflexivity.
Defined.

(** C4, as stated, fails: a call whose file_path is the empty string is
    accepted. *)
Lemma VideoCreate_empty_file_path_accepted :
  VideoCreate.new
    (kw [("title", PStr "clip"); ("file_path", PStr "");
         ("file_size", PInt 1024); ("format", PStr "mp4")])
  = inr (VideoCreate.mk "clip" "" "" 1024 (mkDecimal false 0 0)
           None None None "mp4" None None).
Proof. reflexivity. Qed.

(** C5, as the code has it. The duration of a VideoCreate is a Decimal with
    default 0 and no bound: every decimal, negative ones included, is
    accepted, and an omitted duration is 0. *)
Theorem VideoCreate_duration_unbounded
    (kwargs : gmap string pyval) (r : VideoCreate.t) (d : Decimal) :
  (VideoCreate.new kwargs = inr r ->
   VideoCreate.new (<["duration" := PDecimal d]> kwargs)
   = inr (VideoCreate.mk (VideoCreate.title r)
            (VideoCreate.description r) (VideoCreate.file_path r)
            (VideoCreate.file_size r) d
            (VideoCreate.width r) (VideoCreate.height r)
            (VideoCreate.frame_rate r) (VideoCreate.format r)
            (VideoCreate.codec r) (VideoCreate.thumbnail_path r)))
  /\ (VideoCreate.new kwargs = inr r ->
      kwargs !! "duration" = None ->
      VideoCreate.duration r = mkDecimal false 0 0).
Proof.
  unfold VideoCreate.new. split.
  - intros H. split_fields H.
    replaced_field (eq_refl : py_Decimal Field.plain (PDecimal d) = inr d).
  - intros H Hk. split_fields H. simpl.
    rewrite (defaulted_omitted _ _ _ _ Hk) in Hfield5. congruence.
Qed.

Lemma VideoCreate_duration_unbounded_witness :
  VideoCreate.new (<["duration" := PDecimal (mkDecimal true 5 0)]> clip)
  = inr (VideoCreate.mk "clip" "" "/videos/clip.mp4" 1024
           (mkDecimal true 5 0) None None None "mp4" None None)
  /\ VideoCreate.duration
       (VideoCreate.mk "clip" "" "/videos/clip.mp4" 1024
          (mkDecimal false 0 0) None None None "mp4" None None)
     = mkDecimal false 0 0.
Proof.
  set (r := VideoCreate.mk "clip" "" "/videos/clip.mp4" 1024
              (mkDecimal false 0 0) None None None "mp4" None None).
  split.
  - apply (proj1 (VideoCreate_duration_unbounded clip r (mkDecimal true 5 0)));
      reflexivity.
  - apply (proj2 (VideoCreate_duration_unbounded clip r (mkDecimal true 5 0)));
      reflexivity.
Defined.

(** C5, as stated, fails: a VideoCreate with the duration -1 is accepted. *)
Lemma VideoCreate_negative_duration_accepted :
  Decimal_ltb (mkDecimal true 1 0) (Decimal_of_Z 0) = true
  /\ VideoCreate.new
       (kw [("title", PStr "clip"); ("file_path", PStr "/videos/clip.mp4");
            ("file_size", PInt 1024); ("format", PStr "mp4");
            ("duration", PDecimal (mkDecimal true 1 0))])
     = inr (VideoCreate.mk "clip" "" "/videos/clip.mp4" 1024
              (mkDecimal true 1 0) None None None "mp4" None None).
Proof. split; reflexivity. Qed.

(** C6, as the code has it. A PlaybackSession built without volume_level and
    playback_speed has the volume 100 and the speed 1.0, which lie in
    [0, 100] and above 0.  The class itself declares no bound on
    playback_speed: every decimal given for it, 0 and negative ones included,
    is accepted. *)
Theorem PlaybackSession_defaults_and_speed
    (now : Z) (kwargs : gmap string pyval) (r : PlaybackSession.t)
    (d : Decimal) :
  (PlaybackSession.validate now kwargs = inr r ->
   kwargs !! "volume_level" = None ->
   kwargs !! "playback_speed" = None ->
   PlaybackSession.volume_level r = mkDecimal false 100 0
   /\ PlaybackSession.playback_speed r = mkDecimal false 10 (-1)
   /\ Decimal_leb (Decimal_of_Z 0) (PlaybackSession.volume_level r) = true
   /\ Decimal_leb (PlaybackSession.volume_level r) (Decimal_of_Z 100) = true
   /\ Decimal_ltb (Decimal_of_Z 0) (PlaybackSession.playback_speed r) = true)
  /\ (PlaybackSession.validate now kwargs = inr r ->
      PlaybackSession.validate now (<["playback_speed" := PDecimal d]> kwargs)
      = inr (PlaybackSession.mk
               (PlaybackSession.id r) (PlaybackSession.video_id r)
               (PlaybackSession.current_position r)
               (PlaybackSession.volume_level r) d
               (PlaybackSession.is_muted r) (PlaybackSession.is_fullscreen r)
               (PlaybackSession.last_played_at r)
               (PlaybackSession.total_watch_time r)
               (PlaybackSession.watch_count r))).
Proof.
  unfold PlaybackSession.validate. split.
  - intros H Hvol Hspeed. split_fields H. simpl.
    rewrite (defaulted_omitted _ _ _ _ Hvol) in Hfield5.
    rewrite (defaulted_omitted _ _ _ _ Hspeed) in Hfield4.
    injection Hfield5 as <-. injection Hfield4 as <-. by repeat split.
  - intros H. split_fields H.
    replaced_field (eq_refl : py_Decimal Field.plain (PDecimal d) = inr d).
Qed.

Lemma PlaybackSession_defaults_and_speed_witness :
  (PlaybackSession.volume_level
     (PlaybackSession.mk None 1 (mkDecimal false 0 0) (mkDecimal false 100 0)
        (mkDecimal false 10 (-1)) false false 0 (mkDecimal false 0 0) 1)
   = mkDecimal false 100 0
   /\ PlaybackSession.playback_speed
        (PlaybackSession.mk None 1 (mkDecimal false 0 0) (mkDecimal false 100 0)
           (mkDecimal false 10 (-1)) false false 0 (mkDecimal false 0 0) 1)
      = mkDecimal false 10 (-1))
  /\ PlaybackSession.validate 0
       (<["playback_speed" := PDecimal (mkDecimal true 2 0)]>
          (kw [("video_id", PInt 1)]))
     = inr (PlaybackSession.mk None 1 (mkDecimal false 0 0)
              (mkDecimal false 100 0) (mkDecimal true 2 0) false false 0
              (mkDecimal false 0 0) 1).
Proof.
  set (r := PlaybackSession.mk None 1 (mkDecimal false 0 0)
              (mkDecimal false 100 0) (mkDecimal false 10 (-1)) false false 0
              (mkDecimal false 0 0) 1).
  split.
  - destruct (proj1 (PlaybackSession_defaults_and_speed
                       0 (kw [("video_id", PInt 1)]) r (mkDecimal true 2 0))
                eq_refl eq_refl eq_refl) as (Hv & Hs & _).
    split; [exact Hv | exact Hs].
  - apply (proj2 (PlaybackSession_defaults_and_speed
                    0 (kw [("video_id", PInt 1)]) r (mkDecimal true 2 0)));
      reflexivity.
Defined.

(** C6, as stated, fails: a PlaybackSession with the playback speed 0 passes
    the validation of the class. *)
Lemma PlaybackSession_zero_speed_accepted :
  Decimal_ltb (Decimal_of_Z 0) (mkDecimal false 0 0) = false
  /\ PlaybackSession.validate 0
       (kw [("video_id", PInt 1); ("playback_speed", PDecimal (mkDecimal false 0 0))])
     = inr (PlaybackSession.mk None 1 (mkDecimal false 0 0)
              (mkDecimal false 100 0) (mkDecimal false 0 0) false false 0
              (mkDecimal false 0 0) 1).
Proof. split; reflexivity. Qed.

(** C7. Round trip: dumping the fields of a VideoCreate that was
    constructed and constructing a VideoCreate from the dump gives the same
    record, field for field; a duration given as "12.5" is the decimal 12.5
    exactly, before and after. *)
Theorem VideoCreate_round_trip (kwargs : gmap string pyval) (r : VideoCreate.t) :
  VideoCreate.new kwargs = inr r ->
  VideoCreate.new (VideoCreate.model_dump r) = inr r.
Proof.
  intros H. unfold VideoCreate.new in *. split_fields H.
  dumped_fields. reflexivity.
Qed.

Lemma VideoCreate_round_trip_witness :
  VideoCreate.new (<["duration" := PStr "12.5"]> clip)
  = inr (VideoCreate.mk "clip" "" "/videos/clip.mp4" 1024
           (mkDecimal false 125 (-1)) None None None "mp4" None None)
  /\ VideoCreate.new
       (VideoCreate.model_dump
          (VideoCreate.mk "clip" "" "/videos/clip.mp4" 1024
             (mkDecimal false 125 (-1)) None None None "mp4" None None))
     = inr (VideoCreate.mk "clip" "" "/videos/clip.mp4" 1024
              (mkDecimal false 125 (-1)) None None None "mp4" None None).
Proof.
  split; [reflexivity|].
  apply (VideoCreate_round_trip (<["duration" := PStr "12.5"]> clip)).
  reflexivity.
Defined.

(** C8. PlaylistItemCreate: playlist_id, video_id and position have no
    default; a call without position, or without one of the others, is
    rejected with a missing-field error for it. *)
Theorem PlaylistItemCreate_fields_required (kwargs : gmap string pyval) :
  (kwargs !! "position" = None ->
   fails_with (PlaylistItemCreate.new kwargs) ("position", missing))
  /\ (kwargs !! "playlist_id" = None ->
      fails_with (PlaylistItemCreate.new kwargs) ("playlist_id", missing))
  /\ (kwargs !! "video_id" = None ->
      fails_with (PlaylistItemCreate.new kwargs) ("video_id", missing)).
Proof.
  unfold PlaylistItemCreate.new. split; [|split].
  - intros Hk. find_field ltac:(by apply required_missing).
  - intros Hk. find_field ltac:(by apply required_missing).
  - intros Hk. find_field ltac:(by apply required_missing).
Qed.

Lemma PlaylistItemCreate_fields_required_witness :
  fails_with
    (PlaylistItemCreate.new (kw [("playlist_id", PInt 7); ("video_id", PInt 1)]))
    ("position", missing)
  /\ fails_with
       (PlaylistItemCreate.new (kw [("video_id", PInt 1); ("position", PInt 0)]))
       ("playlist_id", missing)
  /\ fails_with
       (PlaylistItemCreate.new (kw [("playlist_id", PInt 7); ("position", PInt 0)]))
       ("video_id", missing).
Proof.
  split; [|split].
  - apply (proj1 (PlaylistItemCreate_fields_required _)); reflexivity.
  - apply (proj1 (proj2 (PlaylistItemCreate_fields_required _))); reflexivity.
  - apply (proj2 (proj2 (PlaylistItemCreate_fields_required _))); reflexivity.
Defined.

(** C9. PlaylistCreate(name="Favorites") succeeds with is_favorite false and
    the empty description; PlaylistItemCreate with any playlist id, the video
    id 1 and the position 0 succeeds: no reference is checked. *)
Theorem Favorites_scenario (playlist_id : Z) :
  PlaylistCreate.new (kw [("name", PStr "Favorites")])
  = inr (PlaylistCreate.mk "Favorites" "" false)
  /\ PlaylistItemCreate.new
       (kw [("playlist_id", PInt playlist_id); ("video_id", PInt 1);
            ("position", PInt 0)])
     = inr (PlaylistItemCreate.mk playlist_id 1 0).
Proof. split; reflexivity. Qed.

(** C10. VideoSearchParams puts no lower bound on limit: every integer up to
    1000, zero and negative ones included, is accepted as the limit of a
    construction that is valid otherwise. *)
Theorem VideoSearchParams_limit_no_lower_bound
    (kwargs : gmap string pyval) (r : VideoSearchParams.t) (z : Z) :
  VideoSearchParams.new kwargs = inr r ->
  z <= 1000 ->
  VideoSearchParams.new (<["limit" := PInt z]> kwargs)
  = inr (VideoSearchParams.mk
           (VideoSearchParams.title r) (VideoSearchParams.format r)
           (VideoSearchParams.min_duration r) (VideoSearchParams.max_duration r)
           (VideoSearchParams.tags r) z (VideoSearchParams.offset r)).
Proof.
  intros H Hz. unfold VideoSearchParams.new in *.
  split_fields H. replaced_field (py_int_le_ok 1000 z Hz).
Qed.

Lemma VideoSearchParams_limit_no_lower_bound_witness :
  VideoSearchParams.new (<["limit" := PInt (-5)]> (kw [("offset", PInt 20)]))
  = inr (VideoSearchParams.mk None None None None None (-5) 20).
Proof.
  apply (VideoSearchParams_limit_no_lower_bound
           (kw [("offset", PInt 20)])
           (VideoSearchParams.mk None None None None None 50 20) (-5)).
  - reflexivity.
  - lia.
Defined.

(** ** Further properties of the classes *)

(** *** What a validator accepts *)


Lemma py_str_bound (n : nat) (v : pyval) (s : string) :
  py_str (Field.with_max_length n Field.plain) v = inr s ->
  (String.length s ≤ n)%nat.
Proof.
  destruct v; try discriminate. simpl.
  destruct (decide _); [|discriminate]. by intros [= <-].
Qed.


Lemma py_bool_inv (v : pyval) (b : bool) : py_bool v = inr b -> v = PBool b.
Proof. destruct v; try discriminate. simpl. congruence. Qed.

Lemma Optional_inv {A} (inner : validator A) (v : pyval) (o : option A) :
  Optional inner v = inr o ->
  (v = PNone /\ o = None) \/ (exists a, inner v = inr a /\ o = Some a).
Proof.
  unfold Optional. intros H.
  destruct v;
    first [ left; split; [reflexivity | congruence]
          | right; destruct (inner _) as [e|a] eqn:E; [discriminate|];
            exists a; split; [reflexivity | congruence] ].
Qed.

Lemma Optional_str_bound (n : nat) (v : pyval) (o : option string) (s : string) :
  Optional (py_str (Field.with_max_length n Field.plain)) v = inr o ->
  o = Some s -> (String.length s ≤ n)%nat.
Proof.
  intros H ->. apply Optional_inv in H as [[_ [=]]|(a & Ha & [= ->])].
  by apply py_str_bound in Ha.
Qed.

Lemma py_bool_again (v : pyval) (b : bool) :
  py_bool v = inr b -> py_bool (PBool b) = inr b.
Proof. done. Qed.

Lemma Optional_bool_again (v : pyval) (o : option bool) :
  Optional py_bool v = inr o ->
  Optional py_bool (VideoCreate.of_option PBool o) = inr o.
Proof. intros _. by destruct o. Qed.

Lemma strings_of_map (l : list string) : strings_of (map PStr l) = Some l.
Proof. induction l as [|s l IH]; simpl; [done|]. by rewrite IH. Qed.

Lemma strings_of_inv (l : list pyval) (ss : list string) :
  strings_of l = Some ss -> l = map PStr ss.
Proof.
  revert ss. induction l as [|v l IH]; intros ss; simpl.
  - by intros [= <-].
  - destruct v; try discriminate.
    destruct (strings_of l) as [ss'|]; [|discriminate].
    intros [= <-]. simpl. by rewrite (IH ss').
Qed.

Lemma Optional_List_str_again (v : pyval) (o : option (list string)) :
  Optional List_str v = inr o ->
  Optional List_str (VideoCreate.of_option (fun l => PList (map PStr l)) o)
  = inr o.
Proof.
  intros _. destruct o as [l|]; [|done]. simpl. by rewrite strings_of_map.
Qed.

(** A field of a dumped record validates to the value it was dumped from,
    for every annotation of models.py. *)
Ltac dumped_value :=
  intros ?;
  first [ apply py_str_again | apply py_int_again | apply py_Decimal_again
        | apply py_bool_again
        | apply Optional_str_again | apply Optional_int_again
        | apply Optional_Decimal_again | apply Optional_bool_again
        | apply Optional_List_str_again ].

Ltac dumped_record :=
  repeat match goal with
         | H : required ?n ?val ?k = inr ?a |- context [required ?n ?val ?k'] =>
             let E := fresh "E" in
             assert (E : required n val k' = inr a)
               by (eapply required_again;
                   [exact H | reflexivity | dumped_value]);
             rewrite E; clear E H
         | H : defaulted ?n ?d ?val ?k = inr ?a
           |- context [defaulted ?n ?d ?val ?k'] =>
             let E := fresh "E" in
             assert (E : defaulted n d val k' = inr a)
               by (eapply defaulted_again;
                   [exact H | reflexivity | dumped_value
                   | intros ->; reflexivity]);
             rewrite E; clear E H
         end.

(** The same fields, validated on the same arguments. *)
Ltac same_fields :=
  repeat match goal with
         | H : _ = inr _ |- _ => rewrite H; clear H
         end;
  reflexivity.

(** *** String fields keep their maximal length *)

Section max_length.
Context (name : string) (n : nat) (kwargs : gmap string pyval).

Lemma required_str_bound (s : string) :
  required name (py_str (Field.with_max_length n Field.plain)) kwargs = inr s ->
  (String.length s ≤ n)%nat.
Proof.
  intros H. apply required_valid in H as (v & _ & Hv).
  by apply py_str_bound in Hv.
Qed.

Lemma defaulted_str_bound (s : string) :
  defaulted name ""%string (py_str (Field.with_max_length n Field.plain)) kwargs
  = inr s ->
  (String.length s ≤ n)%nat.
Proof.
  intros H. apply defaulted_valid in H as [[_ ->]|(v & _ & Hv)].
  - apply Nat.le_0_l.
  - by apply py_str_bound in Hv.
Qed.

Lemma defaulted_Optional_str_bound (o : option string) (s : string) :
  defaulted name None
    (Optional (py_str (Field.with_max_length n Field.plain))) kwargs = inr o ->
  o = Some s ->
  (String.length s ≤ n)%nat.
Proof.
  intros H Hs. apply defaulted_valid in H as [[_ ->]|(v & _ & Hv)].
  - discriminate.
  - by apply (Optional_str_bound n v o s).
Qed.
End max_length.

(** *** Video and its schemas *)

(** Every VideoCreate that was constructed keeps the maximal lengths of its
    string fields, also where a default was used. *)
Theorem VideoCreate_within_max_lengths
    (kwargs : gmap string pyval) (r : VideoCreate.t) :
  VideoCreate.new kwargs = inr r ->
  (String.length (VideoCreate.title r) ≤ 255)%nat
  /\ (String.length (VideoCreate.description r) ≤ 2000)%nat
  /\ (String.length (VideoCreate.file_path r) ≤ 500)%nat
  /\ (String.length (VideoCreate.format r) ≤ 50)%nat
  /\ (forall s, VideoCreate.codec r = Some s -> (String.length s ≤ 50)%nat)
  /\ (forall s, VideoCreate.thumbnail_path r = Some s ->
                (String.length s ≤ 500)%nat).
Proof.
  intros H. unfold VideoCreate.new in H. split_fields H.
  split; [exact (required_str_bound _ _ _ _ Hfield9)|].
  split; [exact (defaulted_str_bound _ _ _ _ Hfield8)|].
  split; [exact (required_str_bound _ _ _ _ Hfield7)|].
  split; [exact (required_str_bound _ _ _ _ Hfield1)|].
  split; intros s.
  - exact (defaulted_Optional_str_bound _ _ _ _ s Hfield0).
  - exact (defaulted_Optional_str_bound _ _ _ _ s Hfield).
Qed.

Lemma VideoCreate_within_max_lengths_witness :
  (String.length "clip" ≤ 255)%nat /\ (String.length "mp4" ≤ 50)%nat.
Proof.
  destruct (VideoCreate_within_max_lengths clip
              (VideoCreate.mk "clip" "" "/videos/clip.mp4" 1024
                 (mkDecimal false 0 0) None None None "mp4" None None)
              eq_refl) as (Ht & _ & _ & Hf & _).
  split; [exact Ht | exact Hf].
Defined.

(** Optional string fields report a value that is too long. *)
Lemma Optional_str_too_long (n : nat) (s : string) :
  (n < String.length s)%nat ->
  Optional (py_str (Field.with_max_length n Field.plain)) (PStr s)
  = inl (string_too_long n).
Proof. intros H. unfold Optional. by rewrite (py_str_too_long n s H). Qed.

Lemma Optional_str_ok (n : nat) (s : string) :
  (String.length s ≤ n)%nat ->
  Optional (py_str (Field.with_max_length n Field.plain)) (PStr s)
  = inr (Some s).
Proof. intros H. unfold Optional. by rewrite (py_str_ok n s H). Qed.

(** A VideoCreate whose description, file_path, format, codec or
    thumbnail_path is longer than the field allows (2000, 500, 50, 50, 500
    characters) is rejected, with an error that names the field and the
    bound. *)
Theorem VideoCreate_string_too_long
    (kwargs : gmap string pyval) (s : string) :
  (kwargs !! "description" = Some (PStr s) -> (2000 < String.length s)%nat ->
   fails_with (VideoCreate.new kwargs) ("description", string_too_long 2000))
  /\ (kwargs !! "file_path" = Some (PStr s) -> (500 < String.length s)%nat ->
      fails_with (VideoCreate.new kwargs) ("file_path", string_too_long 500))
  /\ (kwargs !! "format" = Some (PStr s) -> (50 < String.length s)%nat ->
      fails_with (VideoCreate.new kwargs) ("format", string_too_long 50))
  /\ (kwargs !! "codec" = Some (PStr s) -> (50 < String.length s)%nat ->
      fails_with (VideoCreate.new kwargs) ("codec", string_too_long 50))
  /\ (kwargs !! "thumbnail_path" = Some (PStr s) ->
      (500 < String.length s)%nat ->
      fails_with (VideoCreate.new kwargs)
        ("thumbnail_path", string_too_long 500)).
Proof.
  unfold VideoCreate.new. split; [|split; [|split; [|split]]]; intros Hk Hlen.
  - find_field ltac:(eapply defaulted_invalid;
                     [exact Hk | by apply py_str_too_long]).
  - find_field ltac:(eapply required_invalid;
                     [exact Hk | by apply py_str_too_long]).
  - find_field ltac:(eapply required_invalid;
                     [exact Hk | by apply py_str_too_long]).
  - find_field ltac:(eapply defaulted_invalid;
                     [exact Hk | by apply Optional_str_too_long]).
  - find_field ltac:(eapply defaulted_invalid;
                     [exact Hk | by apply Optional_str_too_long]).
Qed.

Lemma VideoCreate_string_too_long_witness :
  fails_with
    (VideoCreate.new (<["format" := PStr (repeat_char "x" 51)]> clip))
    ("format", string_too_long 50)
  /\ fails_with
       (VideoCreate.new (<["codec" := PStr (repeat_char "x" 51)]> clip))
       ("codec", string_too_long 50).
Proof.
  split.
  - apply (proj1 (proj2 (proj2 (VideoCreate_string_too_long
                                  _ (repeat_char "x" 51)))));
      [reflexivity | vm_compute; lia].
  - apply (proj1 (proj2 (proj2 (proj2 (VideoCreate_string_too_long
                                         _ (repeat_char "x" 51))))));
      [reflexivity | vm_compute; lia].
Defined.

(** VideoCreate and the table Video declare the same constraints on the
    fields they share: the dump of a VideoCreate passes the validation of
    Video, which adds no id and the two time stamps; and whatever passes the
    validation of Video is accepted by VideoCreate, with the same values. *)
Theorem VideoCreate_agrees_with_Video
    (created updated : Z) (kwargs : gmap string pyval)
    (c : VideoCreate.t) (v : Video.t) :
  (VideoCreate.new kwargs = inr c ->
   Video.validate created updated (VideoCreate.model_dump c)
   = inr (Video_of_VideoCreate created updated c))
  /\ (Video.validate created updated kwargs = inr v ->
      VideoCreate.new kwargs = inr (VideoCreate_of_Video v)).
Proof.
  unfold VideoCreate.new, Video.validate. split; intros H; split_fields H.
  - dumped_record. reflexivity.
  - same_fields.
Qed.

Lemma VideoCreate_agrees_with_Video_witness :
  Video.validate 10 11
    (VideoCreate.model_dump
       (VideoCreate.mk "clip" "" "/videos/clip.mp4" 1024
          (mkDecimal false 0 0) None None None "mp4" None None))
  = inr (Video.mk None "clip" "" "/videos/clip.mp4" 1024
           (mkDecimal false 0 0) None None None "mp4" None None 10 11)
  /\ VideoCreate.new (<["id" := PInt 3]> clip)
     = inr (VideoCreate.mk "clip" "" "/videos/clip.mp4" 1024
              (mkDecimal false 0 0) None None None "mp4" None None).
Proof.
  split.
  - apply (proj1 (VideoCreate_agrees_with_Video 10 11 clip
                    (VideoCreate.mk "clip" "" "/videos/clip.mp4" 1024
                       (mkDecimal false 0 0) None None None "mp4" None None)
                    (Video.mk None "" "" "" 0 (mkDecimal false 0 0)
                       None None None "" None None 0 0))).
    reflexivity.
  - apply (proj2 (VideoCreate_agrees_with_Video 10 11
                    (<["id" := PInt 3]> clip)
                    (VideoCreate.mk "" "" "" 0 (mkDecimal false 0 0)
                       None None None "" None None)
                    (Video.mk (Some 3) "clip" "" "/videos/clip.mp4" 1024
                       (mkDecimal false 0 0) None None None "mp4" None None
                       10 11))).
    reflexivity.
Defined.

(** *** Playlists *)

(** PlaylistCreate: the name is required and has at most 200 characters, the
    description at most 1000; a longer name or description is rejected with
    an error for that field, and every PlaylistCreate that was constructed
    is within both bounds. *)
Theorem PlaylistCreate_bounds
    (kwargs : gmap string pyval) (r : PlaylistCreate.t) (s : string) :
  (PlaylistCreate.new kwargs = inr r ->
   (String.length (PlaylistCreate.name r) ≤ 200)%nat
   /\ (String.length (PlaylistCreate.description r) ≤ 1000)%nat)
  /\ (kwargs !! "name" = None ->
      fails_with (PlaylistCreate.new kwargs) ("name", missing))
  /\ (kwargs !! "name" = Some (PStr s) -> (200 < String.length s)%nat ->
      fails_with (PlaylistCreate.new kwargs) ("name", string_too_long 200))
  /\ (kwargs !! "description" = Some (PStr s) ->
      (1000 < String.length s)%nat ->
      fails_with (PlaylistCreate.new kwargs)
        ("description", string_too_long 1000)).
Proof.
  unfold PlaylistCreate.new. split; [|split; [|split]].
  - intros H. split_fields H. split.
    + exact (required_str_bound _ _ _ _ Hfield1).
    + exact (defaulted_str_bound _ _ _ _ Hfield0).
  - intros Hk. find_field ltac:(by apply required_missing).
  - intros Hk Hlen.
    find_field ltac:(eapply required_invalid;
                     [exact Hk | by apply py_str_too_long]).
  - intros Hk Hlen.
    find_field ltac:(eapply defaulted_invalid;
                     [exact Hk | by apply py_str_too_long]).
Qed.

Lemma PlaylistCreate_bounds_witness :
  ((String.length "Favorites" ≤ 200)%nat /\ (String.length "" ≤ 1000)%nat)
  /\ fails_with (PlaylistCreate.new (kw [("is_favorite", PBool true)]))
       ("name", missing)
  /\ fails_with
       (PlaylistCreate.new (kw [("name", PStr (repeat_char "n" 201))]))
       ("name", string_too_long 200)
  /\ fails_with
       (PlaylistCreate.new
          (kw [("name", PStr "Favorites");
               ("description", PStr (repeat_char "d" 1001))]))
       ("description", string_too_long 1000).
Proof.
  set (r := PlaylistCreate.mk "Favorites" "" false).
  split; [|split; [|split]].
  - apply (proj1 (PlaylistCreate_bounds (kw [("name", PStr "Favorites")]) r ""));
      reflexivity.
  - apply (proj1 (proj2 (PlaylistCreate_bounds _ r ""))); reflexivity.
  - apply (proj1 (proj2 (proj2 (PlaylistCreate_bounds
                                  _ r (repeat_char "n" 201)))));
      [reflexivity | vm_compute; lia].
  - apply (proj2 (proj2 (proj2 (PlaylistCreate_bounds
                                  _ r (repeat_char "d" 1001)))));
      [reflexivity | vm_compute; lia].
Defined.





(** PlaylistItemCreate and the table PlaylistItem declare the same
    constraints on playlist_id, video_id and position. *)
Theorem PlaylistItemCreate_agrees_with_PlaylistItem
    (added : Z) (kwargs : gmap string pyval)
    (c : PlaylistItemCreate.t) (i : PlaylistItem.t) :
  (PlaylistItemCreate.new kwargs = inr c ->
   PlaylistItem.validate added (PlaylistItemCreate_model_dump c)
   = inr (PlaylistItem.mk None (PlaylistItemCreate.playlist_id c)
            (PlaylistItemCreate.video_id c) (PlaylistItemCreate.position c)
            added))
  /\ (PlaylistItem.validate added kwargs = inr i ->
      PlaylistItemCreate.new kwargs
      = inr (PlaylistItemCreate.mk (PlaylistItem.playlist_id i)
               (PlaylistItem.video_id i) (PlaylistItem.position i))).
Proof.
  unfold PlaylistItemCreate.new, PlaylistItem.validate.
  split; intros H; split_fields H.
  - dumped_record. reflexivity.
  - same_fields.
Qed.

Lemma PlaylistItemCreate_agrees_with_PlaylistItem_witness :
  PlaylistItem.validate 10
    (PlaylistItemCreate_model_dump (PlaylistItemCreate.mk 7 1 0))
  = inr (PlaylistItem.mk None 7 1 0 10)
  /\ PlaylistItemCreate.new
       (kw [("playlist_id", PInt 7); ("video_id", PInt 1);
            ("position", PInt (-2)); ("added_at", PDatetime 5)])
     = inr (PlaylistItemCreate.mk 7 1 (-2)).
Proof.
  split.
  - apply (proj1 (PlaylistItemCreate_agrees_with_PlaylistItem 10
                    (kw [("playlist_id", PInt 7); ("video_id", PInt 1);
                         ("position", PInt 0)])
                    (PlaylistItemCreate.mk 7 1 0)
                    (PlaylistItem.mk None 0 0 0 0))).
    reflexivity.
  - apply (proj2 (PlaylistItemCreate_agrees_with_PlaylistItem 10
                    (kw [("playlist_id", PInt 7); ("video_id", PInt 1);
                         ("position", PInt (-2)); ("added_at", PDatetime 5)])
                    (PlaylistItemCreate.mk 0 0 0)
                    (PlaylistItem.mk None 7 1 (-2) 5))).
    reflexivity.
Defined.

(** *** User preferences *)

(** UserPreferenceCreate: preference_key, preference_value and data_type are
    required, with at most 100, 500 and 20 characters; the description has at
    most 200.  The data_type is free text within its length: for a call that
    is valid otherwise, every string of at most 20 characters is accepted as
    data_type, and a longer one is rejected. *)
Theorem UserPreferenceCreate_bounds
    (kwargs : gmap string pyval) (r : UserPreferenceCreate.t) (s : string) :
  (UserPreferenceCreate.new kwargs = inr r ->
   (String.length (UserPreferenceCreate.preference_key r) ≤ 100)%nat
   /\ (String.length (UserPreferenceCreate.preference_value r) ≤ 500)%nat
   /\ (String.length (UserPreferenceCreate.data_type r) ≤ 20)%nat
   /\ (String.length (UserPreferenceCreate.description r) ≤ 200)%nat)
  /\ (UserPreferenceCreate.new kwargs = inr r ->
      (String.length s ≤ 20)%nat ->
      UserPreferenceCreate.new (<["data_type" := PStr s]> kwargs)
      = inr (UserPreferenceCreate.mk
               (UserPreferenceCreate.preference_key r)
               (UserPreferenceCreate.preference_value r) s
               (UserPreferenceCreate.description r)))
  /\ (kwargs !! "data_type" = Some (PStr s) -> (20 < String.length s)%nat ->
      fails_with (UserPreferenceCreate.new kwargs)
        ("data_type", string_too_long 20))
  /\ (kwargs !! "preference_key" = None ->
      fails_with (UserPreferenceCreate.new kwargs) ("preference_key", missing))
  /\ (kwargs !! "preference_value" = None ->
      fails_with (UserPreferenceCreate.new kwargs)
        ("preference_value", missing))
  /\ (kwargs !! "data_type" = None ->
      fails_with (UserPreferenceCreate.new kwargs) ("data_type", missing)).
Proof.
  unfold UserPreferenceCreate.new.
  split; [|split; [|split; [|split; [|split]]]].
  - intros H. split_fields H.
    split; [exact (required_str_bound _ _ _ _ Hfield2)|].
    split; [exact (required_str_bound _ _ _ _ Hfield1)|].
    split; [exact (required_str_bound _ _ _ _ Hfield0)|].
    exact (defaulted_str_bound _ _ _ _ Hfield).
  - intros H Hlen. split_fields H. replaced_field (py_str_ok 20 s Hlen).
  - intros Hk Hlen.
    find_field ltac:(eapply required_invalid;
                     [exact Hk | by apply py_str_too_long]).
  - intros Hk. find_field ltac:(by apply required_missing).
  - intros Hk. find_field ltac:(by apply required_missing).
  - intros Hk. find_field ltac:(by apply required_missing).
Qed.

Lemma UserPreferenceCreate_bounds_witness :
  (String.length "volume" ≤ 100)%nat
  /\ UserPreferenceCreate.new
       (<["data_type" := PStr "percentage"]>
          (kw [("preference_key", PStr "volume");
               ("preference_value", PStr "80"); ("data_type", PStr "int")]))
     = inr (UserPreferenceCreate.mk "volume" "80" "percentage" "")
  /\ fails_with
       (UserPreferenceCreate.new
          (kw [("preference_key", PStr "volume");
               ("preference_value", PStr "80");
               ("data_type", PStr (repeat_char "t" 21))]))
       ("data_type", string_too_long 20)
  /\ fails_with
       (UserPreferenceCreate.new (kw [("preference_value", PStr "80")]))
       ("preference_key", missing).
Proof.
  set (k := kw [("preference_key", PStr "volume");
                ("preference_value", PStr "80"); ("data_type", PStr "int")]).
  set (r := UserPreferenceCreate.mk "volume" "80" "int" "").
  split; [|split; [|split]].
  - apply (proj1 (UserPreferenceCreate_bounds k r "")). reflexivity.
  - apply (proj1 (proj2 (UserPreferenceCreate_bounds k r "percentage")));
      [reflexivity | vm_compute; lia].
  - apply (proj1 (proj2 (proj2 (UserPreferenceCreate_bounds
                                  _ r (repeat_char "t" 21)))));
      [reflexivity | vm_compute; lia].
  - apply (proj1 (proj2 (proj2 (proj2 (UserPreferenceCreate_bounds _ r "")))));
      reflexivity.
Defined.

(** UserPreferenceCreate and the table UserPreference declare the same
    constraints on the four fields they share. *)
Theorem UserPreferenceCreate_agrees_with_UserPreference
    (created updated : Z) (kwargs : gmap string pyval)
    (c : UserPreferenceCreate.t) (u : UserPreference.t) :
  (UserPreferenceCreate.new kwargs = inr c ->
   UserPreference.validate created updated (UserPreferenceCreate.model_dump c)
   = inr (UserPreference.mk None
            (UserPreferenceCreate.preference_key c)
            (UserPreferenceCreate.preference_value c)
            (UserPreferenceCreate.data_type c)
            (UserPreferenceCreate.description c) created updated))
  /\ (UserPreference.validate created updated kwargs = inr u ->
      UserPreferenceCreate.new kwargs
      = inr (UserPreferenceCreate.mk
               (UserPreference.preference_key u)
               (UserPreference.preference_value u)
               (UserPreference.data_type u) (UserPreference.description u))).
Proof.
  unfold UserPreferenceCreate.new, UserPreference.validate.
  split; intros H; split_fields H.
  - dumped_record. reflexivity.
  - same_fields.
Qed.

Lemma UserPreferenceCreate_agrees_with_UserPreference_witness :
  UserPreference.validate 10 11
    (UserPreferenceCreate.model_dump
       (UserPreferenceCreate.mk "volume" "80" "int" ""))
  = inr (UserPreference.mk None "volume" "80" "int" "" 10 11)
  /\ UserPreferenceCreate.new
       (kw [("preference_key", PStr "volume"); ("preference_value", PStr "80");
            ("data_type", PStr "int"); ("created_at", PDatetime 3)])
     = inr (UserPreferenceCreate.mk "volume" "80" "int" "").
Proof.
  split.
  - apply (proj1 (UserPreferenceCreate_agrees_with_UserPreference 10 11
                    (kw [("preference_key", PStr "volume");
                         ("preference_value", PStr "80");
                         ("data_type", PStr "int")])
                    (UserPreferenceCreate.mk "volume" "80" "int" "")
                    (UserPreference.mk None "" "" "" "" 0 0))).
    reflexivity.
  - apply (proj2 (UserPreferenceCreate_agrees_with_UserPreference 10 11
                    (kw [("preference_key", PStr "volume");
                         ("preference_value", PStr "80");
                         ("data_type", PStr "int");
                         ("created_at", PDatetime 3)])
                    (UserPreferenceCreate.mk "" "" "" "")
                    (UserPreference.mk None "volume" "80" "int" "" 3 11))).
    reflexivity.
Defined.

(** *** Tags *)



(** VideoTagCreate and the table VideoTag declare the same constraints on
    name and color. *)
Theorem VideoTagCreate_agrees_with_VideoTag
    (created : Z) (kwargs : gmap string pyval)
    (c : VideoTagCreate.t) (t : VideoTag.t) :
  (VideoTagCreate.new kwargs = inr c ->
   VideoTag.validate created (VideoTagCreate.model_dump c)
   = inr (VideoTag.mk None (VideoTagCreate.name c) (VideoTagCreate.color c)
            created))
  /\ (VideoTag.validate created kwargs = inr t ->
      VideoTagCreate.new kwargs
      = inr (VideoTagCreate.mk (VideoTag.name t) (VideoTag.color t))).
Proof.
  unfold VideoTagCreate.new, VideoTag.validate.
  split; intros H; split_fields H.
  - dumped_record. reflexivity.
  - same_fields.
Qed.

Lemma VideoTagCreate_agrees_with_VideoTag_witness :
  VideoTag.validate 10
    (VideoTagCreate.model_dump (VideoTagCreate.mk "music" (Some "#ff0000")))
  = inr (VideoTag.mk None "music" (Some "#ff0000") 10)
  /\ VideoTagCreate.new (kw [("id", PInt 2); ("name", PStr "music")])
     = inr (VideoTagCreate.mk "music" None).
Proof.
  split.
  - apply (proj1 (VideoTagCreate_agrees_with_VideoTag 10
                    (kw [("name", PStr "music"); ("color", PStr "#ff0000")])
                    (VideoTagCreate.mk "music" (Some "#ff0000"))
                    (VideoTag.mk None "" None 0))).
    reflexivity.
  - apply (proj2 (VideoTagCreate_agrees_with_VideoTag 10
                    (kw [("id", PInt 2); ("name", PStr "music")])
                    (VideoTagCreate.mk "" None)
                    (VideoTag.mk (Some 2) "music" None 10))).
    reflexivity.
Defined.



(** *** Update schemas *)

(** VideoUpdate: every field may be left out; a title, description or
    thumbnail_path that is given has at most 255, 2000 and 500 characters,
    and a longer one is rejected with an error for that field. *)
Theorem VideoUpdate_bounds
    (kwargs : gmap string pyval) (r : VideoUpdate.t) (s : string) :
  (VideoUpdate.new kwargs = inr r ->
   (VideoUpdate.title r = Some s -> (String.length s ≤ 255)%nat)
   /\ (VideoUpdate.description r = Some s -> (String.length s ≤ 2000)%nat)
   /\ (VideoUpdate.thumbnail_path r = Some s ->
       (String.length s ≤ 500)%nat))
  /\ (kwargs !! "title" = Some (PStr s) -> (255 < String.length s)%nat ->
      fails_with (VideoUpdate.new kwargs) ("title", string_too_long 255))
  /\ (kwargs !! "description" = Some (PStr s) ->
      (2000 < String.length s)%nat ->
      fails_with (VideoUpdate.new kwargs)
        ("description", string_too_long 2000))
  /\ (kwargs !! "thumbnail_path" = Some (PStr s) ->
      (500 < String.length s)%nat ->
      fails_with (VideoUpdate.new kwargs)
        ("thumbnail_path", string_too_long 500))
  /\ (kwargs !! "title" = None -> kwargs !! "description" = None ->
      kwargs !! "thumbnail_path" = None ->
      VideoUpdate.new kwargs = inr (VideoUpdate.mk None None None)).
Proof.
  unfold VideoUpdate.new. split; [|split; [|split; [|split]]].
  - intros H. split_fields H. simpl.
    split; [exact (defaulted_Optional_str_bound _ _ _ _ s Hfield1)|].
    split; [exact (defaulted_Optional_str_bound _ _ _ _ s Hfield0)|].
    exact (defaulted_Optional_str_bound _ _ _ _ s Hfield).
  - intros Hk Hlen.
    find_field ltac:(eapply defaulted_invalid;
                     [exact Hk | by apply Optional_str_too_long]).
  - intros Hk Hlen.
    find_field ltac:(eapply defaulted_invalid;
                     [exact Hk | by apply Optional_str_too_long]).
  - intros Hk Hlen.
    find_field ltac:(eapply defaulted_invalid;
                     [exact Hk | by apply Optional_str_too_long]).
  - intros H1 H2 H3.
    by rewrite (defaulted_omitted _ _ _ _ H1), (defaulted_omitted _ _ _ _ H2),
      (defaulted_omitted _ _ _ _ H3).
Qed.

Lemma VideoUpdate_bounds_witness :
  (String.length "holiday" ≤ 255)%nat
  /\ fails_with
       (VideoUpdate.new (kw [("title", PStr (repeat_char "t" 256))]))
       ("title", string_too_long 255)
  /\ VideoUpdate.new (kw [("file_size", PInt 3)])
     = inr (VideoUpdate.mk None None None).
Proof.
  split; [|split].
  - apply (proj1 (VideoUpdate_bounds (kw [("title", PStr "holiday")])
                    (VideoUpdate.mk (Some "holiday"%string) None None)
                    "holiday")); reflexivity.
  - apply (proj1 (proj2 (VideoUpdate_bounds
                           _ (VideoUpdate.mk None None None)
                           (repeat_char "t" 256))));
      [reflexivity | vm_compute; lia].
  - apply (proj2 (proj2 (proj2 (proj2 (VideoUpdate_bounds
                                         _ (VideoUpdate.mk None None None) "")))));
      reflexivity.
Defined.

(** The values of an accepted VideoUpdate fit the table: writing its title,
    description or thumbnail_path into the arguments of a valid Video gives
    a valid Video, with that field changed. *)
Theorem VideoUpdate_values_fit_Video
    (created updated : Z) (video update : gmap string pyval)
    (v : Video.t) (u : VideoUpdate.t) (s : string) :
  Video.validate created updated video = inr v ->
  VideoUpdate.new update = inr u ->
  (VideoUpdate.title u = Some s ->
   Video.validate created updated (<["title" := PStr s]> video)
   = inr (Video.mk (Video.id v) s (Video.description v) (Video.file_path v)
            (Video.file_size v) (Video.duration v) (Video.width v)
            (Video.height v) (Video.frame_rate v) (Video.format v)
            (Video.codec v) (Video.thumbnail_path v) (Video.created_at v)
            (Video.updated_at v)))
  /\ (VideoUpdate.description u = Some s ->
      Video.validate created updated (<["description" := PStr s]> video)
      = inr (Video.mk (Video.id v) (Video.title v) s (Video.file_path v)
               (Video.file_size v) (Video.duration v) (Video.width v)
               (Video.height v) (Video.frame_rate v) (Video.format v)
               (Video.codec v) (Video.thumbnail_path v) (Video.created_at v)
               (Video.updated_at v)))
  /\ (VideoUpdate.thumbnail_path u = Some s ->
      Video.validate created updated (<["thumbnail_path" := PStr s]> video)
      = inr (Video.mk (Video.id v) (Video.title v) (Video.description v)
               (Video.file_path v) (Video.file_size v) (Video.duration v)
               (Video.width v) (Video.height v) (Video.frame_rate v)
               (Video.format v) (Video.codec v) (Some s) (Video.created_at v)
               (Video.updated_at v))).
Proof.
  intros Hv Hu. unfold VideoUpdate.new in Hu. split_fields Hu. simpl.
  pose proof (defaulted_Optional_str_bound _ _ _ _ s Hfield1) as Htitle.
  pose proof (defaulted_Optional_str_bound _ _ _ _ s Hfield0) as Hdesc.
  pose proof (defaulted_Optional_str_bound _ _ _ _ s Hfield) as Hthumb.
  clear Hfield1 Hfield0 Hfield.
  unfold Video.validate in *. split_fields Hv. simpl.
  split; [|split]; intros Hs.
  - replaced_field (py_str_ok 255 s (Htitle Hs)).
  - replaced_field (py_str_ok 2000 s (Hdesc Hs)).
  - replaced_field (Optional_str_ok 500 s (Hthumb Hs)).
Qed.

Lemma VideoUpdate_values_fit_Video_witness :
  Video.validate 10 11 (<["title" := PStr "holiday"]> clip)
  = inr (Video.mk None "holiday" "" "/videos/clip.mp4" 1024
           (mkDecimal false 0 0) None None None "mp4" None None 10 11).
Proof.
  apply (proj1 (VideoUpdate_values_fit_Video 10 11 clip
                  (kw [("title", PStr "holiday")])
                  (Video.mk None "clip" "" "/videos/clip.mp4" 1024
                     (mkDecimal false 0 0) None None None "mp4" None None
                     10 11)
                  (VideoUpdate.mk (Some "holiday"%string) None None)
                  "holiday" eq_refl eq_refl)).
  reflexivity.
Defined.



(** Dumping an update schema that was constructed and constructing it again
    from the dump gives the same record: VideoUpdate, PlaylistUpdate and
    PlaybackSessionUpdate. *)
Theorem update_schemas_round_trip
    (kwargs : gmap string pyval)
    (v : VideoUpdate.t) (p : PlaylistUpdate.t) (s : PlaybackSessionUpdate.t) :
  (VideoUpdate.new kwargs = inr v ->
   VideoUpdate.new (VideoUpdate.model_dump v) = inr v)
  /\ (PlaylistUpdate.new kwargs = inr p ->
      PlaylistUpdate.new (PlaylistUpdate.model_dump p) = inr p)
  /\ (PlaybackSessionUpdate.new kwargs = inr s ->
      PlaybackSessionUpdate.new (PlaybackSessionUpdate_model_dump s) = inr s).
Proof.
  unfold VideoUpdate.new, PlaylistUpdate.new, PlaybackSessionUpdate.new.
  split; [|split]; intros H; split_fields H; dumped_record; reflexivity.
Qed.

Lemma update_schemas_round_trip_witness :
  VideoUpdate.new
    (VideoUpdate.model_dump (VideoUpdate.mk (Some "holiday"%string) None None))
  = inr (VideoUpdate.mk (Some "holiday"%string) None None)
  /\ PlaybackSessionUpdate.new
       (PlaybackSessionUpdate_model_dump
          (PlaybackSessionUpdate.mk None (Some (mkDecimal false 805 (-1)))
             None (Some true) None))
     = inr (PlaybackSessionUpdate.mk None (Some (mkDecimal false 805 (-1)))
              None (Some true) None).
Proof.
  split.
  - apply (proj1 (update_schemas_round_trip
                    (kw [("title", PStr "holiday")])
                    (VideoUpdate.mk (Some "holiday"%string) None None)
                    (PlaylistUpdate.mk None None None)
                    (PlaybackSessionUpdate.mk None None None None None))).
    reflexivity.
  - apply (proj2 (proj2 (update_schemas_round_trip
                    (kw [("volume_level", PStr "80.5"); ("is_muted", PBool true)])
                    (VideoUpdate.mk None None None)
                    (PlaylistUpdate.mk None None None)
                    (PlaybackSessionUpdate.mk None
                       (Some (mkDecimal false 805 (-1))) None (Some true)
                       None)))).
    reflexivity.
Defined.

(** *** Playback sessions *)

Lemma py_Decimal_checked (f : Field.t) (v : pyval) (d : Decimal) :
  py_Decimal f v = inr d -> check_bounds f d = None.
Proof.
  unfold py_Decimal. destruct (to_Decimal v) as [d0|]; [|discriminate].
  destruct (check_bounds f d0) eqn:E; [discriminate|]. by intros [= <-].
Qed.

Lemma defaulted_Optional_Decimal_checked (name : string) (f : Field.t)
    (kwargs : gmap string pyval) (o : option Decimal) (d : Decimal) :
  defaulted name None (Optional (py_Decimal f)) kwargs = inr o ->
  o = Some d ->
  check_bounds f d = None.
Proof.
  intros H ->. apply defaulted_valid in H as [[_ [=]]|(v & _ & Hv)].
  apply Optional_inv in Hv as [[_ [=]]|(a & Ha & [= ->])].
  by apply py_Decimal_checked in Ha.
Qed.

(** Every PlaybackSessionUpdate that was constructed keeps the ranges: a
    volume_level that is present denotes a number from 0 to 100, and a
    playback_speed that is present denotes a number above 0. *)
Theorem PlaybackSessionUpdate_within_ranges
    (kwargs : gmap string pyval) (r : PlaybackSessionUpdate.t) (d : Decimal) :
  PlaybackSessionUpdate.new kwargs = inr r ->
  (PlaybackSessionUpdate.volume_level r = Some d ->
   (0 <= Decimal_value d)%Q /\ (Decimal_value d <= 100)%Q)
  /\ (PlaybackSessionUpdate.playback_speed r = Some d ->
      (0 < Decimal_value d)%Q).
Proof.
  intros H. unfold PlaybackSessionUpdate.new in H. split_fields H. simpl.
  split; intros Hd.
  - pose proof (defaulted_Optional_Decimal_checked _ _ _ _ d Hfield2 Hd) as Hc.
    unfold check_bounds, check_bound in Hc; simpl in Hc.
    destruct (Decimal_leb d (Decimal_of_Z 100)) eqn:Hle; [|discriminate].
    destruct (Decimal_leb (Decimal_of_Z 0) d) eqn:Hge; [|discriminate].
    apply Decimal_leb_value in Hle, Hge.
    rewrite Decimal_value_of_Z in Hle, Hge. by split.
  - pose proof (defaulted_Optional_Decimal_checked _ _ _ _ d Hfield1 Hd) as Hc.
    unfold check_bounds, check_bound in Hc; simpl in Hc.
    destruct (Decimal_ltb (Decimal_of_Z 0) d) eqn:Hgt; [|discriminate].
    apply Decimal_ltb_value in Hgt. by rewrite Decimal_value_of_Z in Hgt.
Qed.

Lemma PlaybackSessionUpdate_within_ranges_witness :
  (0 <= Decimal_value (mkDecimal false 805 (-1)))%Q
  /\ (Decimal_value (mkDecimal false 805 (-1)) <= 100)%Q.
Proof.
  apply (proj1 (PlaybackSessionUpdate_within_ranges
                  (kw [("volume_level", PStr "80.5")])
                  (PlaybackSessionUpdate.mk None
                     (Some (mkDecimal false 805 (-1))) None None None)
                  (mkDecimal false 805 (-1)) eq_refl)).
  reflexivity.
Defined.

(** A PlaybackSession needs a video_id.  Given the video_id alone it starts
    at position 0 with volume 100, speed 1.0, not muted, not fullscreen,
    played at the time of the call, nothing watched yet and a watch count of
    1. *)
Theorem PlaybackSession_defaults
    (now : Z) (kwargs : gmap string pyval) (video_id : Z) :
  (kwargs !! "video_id" = None ->
   fails_with (PlaybackSession.validate now kwargs) ("video_id", missing))
  /\ (kwargs !! "video_id" = Some (PInt video_id) ->
      kwargs !! "id" = None ->
      kwargs !! "current_position" = None ->
      kwargs !! "volume_level" = None ->
      kwargs !! "playback_speed" = None ->
      kwargs !! "is_muted" = None ->
      kwargs !! "is_fullscreen" = None ->
      kwargs !! "last_played_at" = None ->
      kwargs !! "total_watch_time" = None ->
      kwargs !! "watch_count" = None ->
      PlaybackSession.validate now kwargs
      = inr (PlaybackSession.mk None video_id (mkDecimal false 0 0)
               (mkDecimal false 100 0) (mkDecimal false 10 (-1)) false false
               now (mkDecimal false 0 0) 1)).
Proof.
  unfold PlaybackSession.validate. split.
  - intros Hk. find_field ltac:(by apply required_missing).
  - intros Hv H1 H2 H3 H4 H5 H6 H7 H8 H9.
    rewrite (defaulted_omitted _ _ _ _ H1), (defaulted_omitted _ _ _ _ H2),
      (defaulted_omitted _ _ _ _ H3), (defaulted_omitted _ _ _ _ H4),
      (defaulted_omitted _ _ _ _ H5), (defaulted_omitted _ _ _ _ H6),
      (defaulted_omitted _ _ _ _ H7), (defaulted_omitted _ _ _ _ H8),
      (defaulted_omitted _ _ _ _ H9).
    unfold required. by rewrite Hv.
Qed.

Lemma PlaybackSession_defaults_witness :
  fails_with (PlaybackSession.validate 10 (kw [("is_muted", PBool true)]))
    ("video_id", missing)
  /\ PlaybackSession.validate 10 (kw [("video_id", PInt 3); ("title", PStr "x")])
     = inr (PlaybackSession.mk None 3 (mkDecimal false 0 0)
              (mkDecimal false 100 0) (mkDecimal false 10 (-1)) false false
              10 (mkDecimal false 0 0) 1).
Proof.
  split.
  - apply (proj1 (PlaybackSession_defaults 10 _ 0)). reflexivity.
  - apply (proj2 (PlaybackSession_defaults 10 _ 3)); reflexivity.
Defined.

(** *** Search parameters *)

Lemma py_int_le_bound (b : Z) (v : pyval) (z : Z) :
  py_int (Field.with_le b Field.plain) v = inr z -> z <= b.
Proof.
  destruct v; try discriminate.
  unfold py_int, check_bounds, check_bound; simpl.
  rewrite Decimal_leb_of_Z. destruct (Z.leb_spec z0 b); [|discriminate].
  by intros [= <-].
Qed.

Lemma py_int_ge_bound (b : Z) (v : pyval) (z : Z) :
  py_int (Field.with_ge b Field.plain) v = inr z -> b <= z.
Proof.
  destruct v; try discriminate.
  unfold py_int, check_bounds, check_bound; simpl.
  rewrite Decimal_leb_of_Z. destruct (Z.leb_spec b z0); [|discriminate].
  by intros [= <-].
Qed.

(** Every VideoSearchParams that was constructed has a limit of at most 1000
    and an offset that is not negative.  The offset has no upper bound: for a
    call that is valid otherwise every offset from 0 on is accepted, and a
    negative one is rejected; a limit above 1000 is rejected. *)
Theorem VideoSearchParams_page_bounds
    (kwargs : gmap string pyval) (r : VideoSearchParams.t) (z : Z) :
  (VideoSearchParams.new kwargs = inr r ->
   VideoSearchParams.limit r <= 1000 /\ 0 <= VideoSearchParams.offset r)
  /\ (VideoSearchParams.new kwargs = inr r -> 0 <= z ->
      VideoSearchParams.new (<["offset" := PInt z]> kwargs)
      = inr (VideoSearchParams.mk
               (VideoSearchParams.title r) (VideoSearchParams.format r)
               (VideoSearchParams.min_duration r)
               (VideoSearchParams.max_duration r)
               (VideoSearchParams.tags r) (VideoSearchParams.limit r) z))
  /\ (kwargs !! "offset" = Some (PInt z) -> z < 0 ->
      fails_with (VideoSearchParams.new kwargs)
        ("offset", greater_than_equal (Decimal_of_Z 0)))
  /\ (kwargs !! "limit" = Some (PInt z) -> 1000 < z ->
      fails_with (VideoSearchParams.new kwargs)
        ("limit", less_than_equal (Decimal_of_Z 1000))).
Proof.
  unfold VideoSearchParams.new. split; [|split; [|split]].
  - intros H. split_fields H. simpl. split.
    + apply defaulted_valid in Hfield0 as [[_ ->]|(v & _ & Hv)]; [lia|].
      by apply py_int_le_bound in Hv.
    + apply defaulted_valid in Hfield as [[_ ->]|(v & _ & Hv)]; [lia|].
      by apply py_int_ge_bound in Hv.
  - intros H Hz. split_fields H. replaced_field (py_int_ge_ok 0 z Hz).
  - intros Hk Hz.
    find_field ltac:(eapply defaulted_invalid;
                     [exact Hk | by apply py_int_ge_invalid]).
  - intros Hk Hz.
    find_field ltac:(eapply defaulted_invalid;
                     [exact Hk | by apply py_int_le_invalid]).
Qed.

Lemma VideoSearchParams_page_bounds_witness :
  (20 <= 1000 /\ 0 <= 40)
  /\ VideoSearchParams.new
       (<["offset" := PInt 1000000]> (kw [("limit", PInt 20)]))
     = inr (VideoSearchParams.mk None None None None None 20 1000000)
  /\ fails_with (VideoSearchParams.new (kw [("offset", PInt (-40))]))
       ("offset", greater_than_equal (Decimal_of_Z 0))
  /\ fails_with (VideoSearchParams.new (kw [("limit", PInt 5000)]))
       ("limit", less_than_equal (Decimal_of_Z 1000)).
Proof.
  split; [|split; [|split]].
  - apply (proj1 (VideoSearchParams_page_bounds
                    (kw [("limit", PInt 20); ("offset", PInt 40)])
                    (VideoSearchParams.mk None None None None None 20 40) 0)).
    reflexivity.
  - apply (proj1 (proj2 (VideoSearchParams_page_bounds
                    (kw [("limit", PInt 20)])
                    (VideoSearchParams.mk None None None None None 20 0)
                    1000000))); [reflexivity | lia].
  - apply (proj1 (proj2 (proj2 (VideoSearchParams_page_bounds
                    _ (VideoSearchParams.mk None None None None None 50 0)
                    (-40))))); [reflexivity | lia].
  - apply (proj2 (proj2 (proj2 (VideoSearchParams_page_bounds
                    _ (VideoSearchParams.mk None None None None None 50 0)
                    5000)))); [reflexivity | lia].
Defined.








(** Dumping a VideoSearchParams that was constructed and constructing it
    again from the dump gives the same record, the list of tags included. *)
Theorem VideoSearchParams_round_trip
    (kwargs : gmap string pyval) (r : VideoSearchParams.t) :
  VideoSearchParams.new kwargs = inr r ->
  VideoSearchParams.new (VideoSearchParams_model_dump r) = inr r.
Proof.
  intros H. unfold VideoSearchParams.new in *. split_fields H.
  dumped_record. reflexivity.
Qed.

Lemma VideoSearchParams_round_trip_witness :
  VideoSearchParams.new
    (VideoSearchParams_model_dump
       (VideoSearchParams.mk None None (Some (mkDecimal false 15 (-1))) None
          (Some ["music"]%string) 20 0))
  = inr (VideoSearchParams.mk None None (Some (mkDecimal false 15 (-1))) None
           (Some ["music"]%string) 20 0).
Proof.
  apply (VideoSearchParams_round_trip
           (kw [("min_duration", PStr "1.5"); ("tags", PList [PStr "music"]);
                ("limit", PInt 20)])).
  reflexivity.
Defined.

(** *** None *)

(** In VideoCreate, None stands for a value only where the annotation is
    Optional.  For description and duration, which have a default but are
    not Optional, and for the required fields, an explicit None is rejected
    with a type error; for width, height, frame_rate, codec and
    thumbnail_path it is accepted and the field is None. *)
Theorem VideoCreate_None
    (kwargs : gmap string pyval) (r : VideoCreate.t) :
  (kwargs !! "description" = Some PNone ->
   fails_with (VideoCreate.new kwargs) ("description", string_type))
  /\ (kwargs !! "duration" = Some PNone ->
      fails_with (VideoCreate.new kwargs) ("duration", decimal_type))
  /\ (kwargs !! "title" = Some PNone ->
      fails_with (VideoCreate.new kwargs) ("title", string_type))
  /\ (kwargs !! "file_size" = Some PNone ->
      fails_with (VideoCreate.new kwargs) ("file_size", int_type))
  /\ (VideoCreate.new kwargs = inr r ->
      VideoCreate.new
        (<["width" := PNone]> (<["height" := PNone]>
        (<["frame_rate" := PNone]> (<["codec" := PNone]>
        (<["thumbnail_path" := PNone]> kwargs)))))
      = inr (VideoCreate.mk (VideoCreate.title r)
               (VideoCreate.description r) (VideoCreate.file_path r)
               (VideoCreate.file_size r) (VideoCreate.duration r)
               None None None (VideoCreate.format r) None None)).
Proof.
  unfold VideoCreate.new. split; [|split; [|split; [|split]]].
  - intros Hk.
    find_field ltac:(eapply defaulted_invalid; [exact Hk | reflexivity]).
  - intros Hk.
    find_field ltac:(eapply defaulted_invalid; [exact Hk | reflexivity]).
  - intros Hk.
    find_field ltac:(eapply required_invalid; [exact Hk | reflexivity]).
  - intros Hk.
    find_field ltac:(eapply required_invalid; [exact Hk | reflexivity]).
  - intros H. split_fields H. unfold required, defaulted in *.
    repeat (rewrite lookup_insert_eq || rewrite lookup_insert_ne by discriminate).
    simpl. same_fields.
Qed.

Lemma VideoCreate_None_witness :
  fails_with (VideoCreate.new (<["description" := PNone]> clip))
    ("description", string_type)
  /\ fails_with (VideoCreate.new (<["duration" := PNone]> clip))
       ("duration", decimal_type)
  /\ VideoCreate.new
       (<["width" := PNone]> (<["height" := PNone]>
       (<["frame_rate" := PNone]> (<["codec" := PNone]>
       (<["thumbnail_path" := PNone]> clip)))))
     = inr (VideoCreate.mk "clip" "" "/videos/clip.mp4" 1024
              (mkDecimal false 0 0) None None None "mp4" None None).
Proof.
  set (r := VideoCreate.mk "clip" "" "/videos/clip.mp4" 1024
              (mkDecimal false 0 0) None None None "mp4" None None).
  split; [|split].
  - apply (proj1 (VideoCreate_None _ r)); reflexivity.
  - apply (proj1 (proj2 (VideoCreate_None _ r))); reflexivity.
  - apply (proj2 (proj2 (proj2 (proj2 (VideoCreate_None clip r)))));
      reflexivity.
Defined.
